(** * libdns provider for Linode: the record translator and the record store client

    A shallow embedding of [client.go].  Go strings are byte sequences and are
    modelled as [string] (one [ascii] per byte); Go's [int] is the 64-bit
    signed integer and is modelled as [Z]; [uint16] and [uint8] conversions
    are written out as reductions modulo [2^16] and [2^8]; a [time.Duration]
    is an [int64] number of nanoseconds, with the wrap-around of its
    multiplication written out.

    The functions of the Go standard library that the client calls
    ([strings.SplitN], [strings.Fields], [strconv.Atoi], ...) are embedded
    from their documented behaviour.  The functions whose behaviour depends on
    tables or parsers that are not part of this repository (Unicode case
    mapping, IP address parsing, the dependency's name handling) are the
    fields of the class [Imports]. *)

From Stdlib Require Import ZArith Lia Bool List Ascii SpecFloat.
From Stdlib Require String.
From stdpp Require Import base option list gmap strings.

Local Open Scope Z_scope.

(** ** Bytes *)

Definition byte_val (c : ascii) : Z := Z.of_N (N_of_ascii c).

Definition byte_is (c : ascii) (n : Z) : bool := byte_val c =? n.

Definition byte_in (c : ascii) (lo hi : Z) : bool :=
  (lo <=? byte_val c) && (byte_val c <=? hi).

Fixpoint string_drop (n : nat) (s : string) : string :=
  match n, s with
  | O, _ => s
  | S _, EmptyString => EmptyString
  | S n', String _ s' => string_drop n' s'
  end.

(** ** Package [strings] *)

Module strings.

(** [strings.HasPrefix(s, prefix)]. *)
Fixpoint HasPrefix (s prefix : string) {struct prefix} : bool :=
  match prefix, s with
  | EmptyString, _ => true
  | String _ _, EmptyString => false
  | String p prefix', String c s' =>
      if Ascii.eqb c p then HasPrefix s' prefix' else false
  end.

(** [strings.TrimPrefix(s, prefix)]: [s] without the leading [prefix], or
    [s] itself when it does not start with [prefix]. *)
Definition TrimPrefix (s prefix : string) : string :=
  if HasPrefix s prefix then string_drop (String.length prefix) s else s.

(** [strings.Cut(s, sep)]: the text before and after the first instance of
    [sep]; this is the [Index] step of [genSplit]. *)
Fixpoint Cut (s sep : string) {struct s} : option (string * string) :=
  if HasPrefix s sep then Some (EmptyString, string_drop (String.length sep) s)
  else
    match s with
    | EmptyString => None
    | String c s' =>
        match Cut s' sep with
        | Some (before, after) => Some (String c before, after)
        | None => None
        end
    end.

(** The loop of [genSplit]: cut at [sep] at most [k] times; the last
    element is the unsplit remainder. *)
Fixpoint genSplit (s sep : string) (k : nat) : list string :=
  match k with
  | O => [s]
  | S k' =>
      match Cut s sep with
      | None => [s]
      | Some (before, after) => before :: genSplit after sep k'
      end
  end.

(** [strings.SplitN(s, sep, n)] for a non-empty [sep] (the client passes
    [" "] and ["."]): [n = 0] gives no substrings, [n > 0] at most [n],
    [n < 0] all of them. *)
Definition SplitN (s sep : string) (n : Z) : list string :=
  if n =? 0 then []
  else genSplit s sep (if n <? 0 then String.length s else Z.to_nat (n - 1)).

(** The width in bytes of the white space character that starts [s], and
    [0] when [s] does not start with one.  White space is what
    [unicode.IsSpace] accepts: the six ASCII characters of [asciiSpace],
    and the UTF-8 encodings of U+0085, U+00A0, U+1680, U+2000 to U+200A,
    U+2028, U+2029, U+202F, U+205F and U+3000. *)
Definition spaceWidth (s : string) : nat :=
  match s with
  | EmptyString => 0%nat
  | String c s1 =>
      if byte_in c 9 13 || byte_is c 32 then 1%nat
      else
        match s1 with
        | EmptyString => 0%nat
        | String c1 s2 =>
            if byte_is c 194 then
              if byte_is c1 133 || byte_is c1 160 then 2%nat else 0%nat
            else
              match s2 with
              | EmptyString => 0%nat
              | String c2 _ =>
                  if byte_is c 225 && byte_is c1 154 && byte_is c2 128 then 3%nat
                  else if byte_is c 226 && byte_is c1 128 &&
                          (byte_in c2 128 138 || byte_in c2 168 169 || byte_is c2 175)
                  then 3%nat
                  else if byte_is c 226 && byte_is c1 129 && byte_is c2 159 then 3%nat
                  else if byte_is c 227 && byte_is c1 128 && byte_is c2 128 then 3%nat
                  else 0%nat
              end
        end
  end.

Definition flushField (cur : string) : list string :=
  match cur with
  | EmptyString => []
  | _ => [cur]
  end.

(** The scan of [strings.Fields]: [skip] counts the bytes still to pass of
    a multi-byte white space character, [cur] is the field being read. *)
Fixpoint fieldsFrom (s : string) (skip : nat) (cur : string) : list string :=
  match s with
  | EmptyString => flushField cur
  | String c s' =>
      match skip with
      | S k => fieldsFrom s' k cur
      | O =>
          match spaceWidth s with
          | O => fieldsFrom s' 0%nat (cur +:+ String c EmptyString)
          | S k => flushField cur ++ fieldsFrom s' k EmptyString
          end
      end
  end.

(** [strings.Fields(s)]: the maximal runs of non-white-space bytes. *)
Definition Fields (s : string) : list string := fieldsFrom s 0%nat EmptyString.

Fixpoint isASCII (s : string) : bool :=
  match s with
  | EmptyString => true
  | String c s' => (byte_val c <? 128) && isASCII s'
  end.

Definition upperByte (c : ascii) : ascii :=
  if byte_in c 97 122 then ascii_of_N (N_of_ascii c - 32) else c.

Fixpoint upperASCII (s : string) : string :=
  match s with
  | EmptyString => EmptyString
  | String c s' => String (upperByte c) (upperASCII s')
  end.

End strings.

(** ** Package [strconv] *)

Module strconv.

Inductive ErrKind := ErrSyntax | ErrRange.

(** [*strconv.NumError]. *)
Record NumError := mkNumError { Func : string; Num : string; Err : ErrKind }.

Definition maxUint64 : Z := 2 ^ 64 - 1.

Definition digitChar (d : Z) : ascii := ascii_of_N (Z.to_N (48 + d)).

(** The digit loop of [formatBits] in base 10; [fuel] bounds the number of
    digits. *)
Fixpoint formatBits (fuel : nat) (u : Z) (a : string) : string :=
  match fuel with
  | O => a
  | S fuel' =>
      if u <? 10 then String (digitChar u) a
      else formatBits fuel' (u / 10) (String (digitChar (u mod 10)) a)
  end.

(** A string of decimal digits. *)
Fixpoint allDigits (s : string) : bool :=
  match s with
  | EmptyString => true
  | String c s' => byte_in c 48 57 && allDigits s'
  end.

Definition FormatUint (u : Z) : string :=
  formatBits (S (Z.to_nat (Z.log2 u))) u EmptyString.

(** [strconv.FormatInt(i, 10)]. *)
Definition FormatInt (i : Z) : string :=
  if i <? 0 then String "-" (FormatUint (- i)) else FormatUint i.

(** [strconv.Itoa(i)]. *)
Definition Itoa (i : Z) : string := FormatInt i.

(** The loop of [ParseUint(s, 10, 64)] from the accumulated value [n]. *)
Fixpoint parseUintFrom (s : string) (n : Z) : Z + ErrKind :=
  match s with
  | EmptyString => inl n
  | String c s' =>
      if negb (byte_in c 48 57) then inr ErrSyntax
      else if maxUint64 / 10 + 1 <=? n then inr ErrRange
      else
        let n1 := n * 10 + (byte_val c - 48) in
        if maxUint64 <? n1 then inr ErrRange else parseUintFrom s' n1
  end.

Definition ParseUint (s : string) : Z + ErrKind :=
  match s with
  | EmptyString => inr ErrSyntax
  | _ => parseUintFrom s 0
  end.

(** [ParseInt(s, 10, 0)] on a 64-bit platform. *)
Definition ParseInt (s : string) : Z + ErrKind :=
  match s with
  | EmptyString => inr ErrSyntax
  | String c s' =>
      let neg := byte_is c 45 in
      let digits := if byte_is c 43 || byte_is c 45 then s' else s in
      match ParseUint digits with
      | inr ErrSyntax => inr ErrSyntax
      | inr ErrRange => inr ErrRange
      | inl un =>
          if negb neg && (2 ^ 63 <=? un) then inr ErrRange
          else if neg && (2 ^ 63 <? un) then inr ErrRange
          else inl (if neg then - un else un)
      end
  end.

(** [strconv.Atoi(s)].  Its fast path for short inputs computes the same
    result as [ParseInt(s, 10, 0)]; the error names [Atoi] and the input. *)
Definition Atoi (s : string) : Z + NumError :=
  match ParseInt s with
  | inl n => inl n
  | inr k => inr (mkNumError "Atoi" s k)
  end.

End strconv.

(** ** Package [time]: durations and their conversion to seconds *)

Module time.

(** [time.Duration]: an [int64] count of nanoseconds. *)
Definition Duration := Z.

Definition Second : Duration := 1000000000.

(** Wrap-around of 64-bit signed arithmetic. *)
Definition wrap64 (z : Z) : Z := (z + 2 ^ 63) mod 2 ^ 64 - 2 ^ 63.

(** [time.Duration(n) * time.Second]. *)
Definition seconds (n : Z) : Duration := wrap64 (n * Second).

(** [float64] values, as IEEE 754 binary64 numbers. *)
Definition float64 := spec_float.

(** The conversion [float64(z)] of an integer, rounding to nearest even. *)
Definition float64_of_int (z : Z) : float64 := binary_normalize 53 1024 z 0 false.

(** The conversion [int(f)]: the fraction is discarded.  The result for a
    value that is not finite is not determined by the language and is
    taken as [0]; [Seconds] never produces one. *)
Definition int_of_float64 (f : float64) : Z :=
  match f with
  | S754_finite s m e =>
      cond_Zopp s (if 0 <=? e then Z.pos m * 2 ^ e else Z.pos m / 2 ^ (- e))
  | _ => 0
  end.

(** [d.Seconds()]: [float64(d / Second) + float64(d % Second) / 1e9]; Go's
    [/] and [%] on integers truncate toward zero. *)
Definition Seconds (d : Duration) : float64 :=
  SFadd 53 1024
    (float64_of_int (Z.quot d Second))
    (SFdiv 53 1024 (float64_of_int (Z.rem d Second)) (float64_of_int 1000000000)).

End time.

(** ** Dynamic values *)

(** A value of type [any] ([interface{}]): [nil], a string, an integer, a
    boolean, or a [map[string]interface{}]. *)
#[warnings="-register-all"]
Inductive any :=
  | anyNil
  | anyString (s : string)
  | anyInt (n : Z)
  | anyBool (b : bool)
  | anyMap (m : gmap string any).

(** The result of a Go function returning [(T, error)]. *)
Inductive result (E A : Type) :=
  | ok (a : A)
  | fail (e : E).
Arguments ok {E A} a.
Arguments fail {E A} e.

(** The outcome of running Go code that may panic. *)
Inductive outcome (A : Type) :=
  | Ret (a : A)
  | Panic (msg : string).
Arguments Ret {A} a.
Arguments Panic {A} msg.

Definition isPanic {A} (o : outcome A) : bool :=
  match o with
  | Panic _ => true
  | Ret _ => false
  end.

(** ** Imported functions left abstract *)

(** What the client imports and this development does not embed:
    [netip.Addr] with [netip.ParseAddr], [Addr.String] and [Addr.Is6];
    [strings.Map(unicode.ToUpper, s)], which [strings.ToUpper] calls on input
    that is not ASCII; and [libdns.RelativeName]. *)
Class Imports := {
  Addr : Type;
  ParseAddr : string -> option Addr;
  AddrString : Addr -> string;
  Is6 : Addr -> bool;
  mapToUpper : string -> string;
  RelativeName : string -> string -> string;
}.

(** [strings.ToUpper(s)]: ASCII input is mapped byte by byte, anything else
    goes through the Unicode tables. *)
Definition ToUpper `{Imports} (s : string) : string :=
  if strings.isASCII s then strings.upperASCII s else mapToUpper s.

(** ** Data model *)

(** [linodego.DomainRecord], with the fields the client reads. *)
Record DomainRecord := mkDomainRecord {
  ID : Z;
  Type_ : string;
  Name : string;
  Target : string;
  TTLSec : Z;
}.

(** [linodego.DomainRecordCreateOptions] and [DomainRecordUpdateOptions], with
    the fields the client sets. *)
Record DomainRecordOptions := mkOptions {
  optType : string;
  optName : string;
  optTarget : string;
  optTTLSec : Z;
}.

(** [libdns.RR]: the generic record, also the result of [Record.RR()]. *)
Record RR := mkRR {
  rrName : string;
  rrTTL : time.Duration;
  rrType : string;
  rrData : string;
}.

Section Model.

Context `{Imports}.

(** The dynamic values of the interface [libdns.Record]: the seven typed
    structs, the generic [libdns.RR] (which has no [ProviderData] field),
    and [Other] for any further implementation, known by its [RR()]. *)
Inductive RecordValue :=
  | Address (name : string) (ttl : time.Duration) (ip : Addr) (providerData : any)
  | TXT (name : string) (ttl : time.Duration) (text : string) (providerData : any)
  | CNAME (name : string) (ttl : time.Duration) (target : string) (providerData : any)
  | MX (name : string) (ttl : time.Duration) (preference : Z) (target : string)
       (providerData : any)
  | SRV (service transport name : string) (ttl : time.Duration)
        (priority weight port : Z) (target : string) (providerData : any)
  | NS (name : string) (ttl : time.Duration) (target : string) (providerData : any)
  | CAA (name : string) (ttl : time.Duration) (flags : Z) (tag value : string)
        (providerData : any)
  | Generic (rr : RR)
  | Other (rr : RR).

(** A value of interface type [libdns.Record]; [None] is the nil interface. *)
Definition libdnsRecord := option RecordValue.

Definition uint16 (n : Z) : Z := n mod 2 ^ 16.
Definition uint8 (n : Z) : Z := n mod 2 ^ 8.

(** The service, transport and residual name that the [SRV] case reads off
    a record name (lines 194 to 207). *)
Definition splitServiceName (name : string) : string * string * string :=
  if strings.HasPrefix name "_" then
    match strings.SplitN name "." 3 with
    | n0 :: n1 :: rest =>
        (strings.TrimPrefix n0 "_", strings.TrimPrefix n1 "_",
         match rest with
         | n2 :: _ => n2
         | [] => EmptyString
         end)
    | _ => (EmptyString, EmptyString, name)
    end
  else (EmptyString, EmptyString, name).

Definition convertToLibdnsRecord (zone : string) (linodeRecord : DomainRecord)
  : libdnsRecord :=
  let name := RelativeName (Name linodeRecord) zone in
  let ttl := time.seconds (TTLSec linodeRecord) in
  let recordType := Type_ linodeRecord in
  let data := Target linodeRecord in
  let providerData := anyMap {[ "id" := anyString (strconv.Itoa (ID linodeRecord)) ]} in
  let fallback := Some (Generic (mkRR name ttl recordType data)) in
  let upper := ToUpper recordType in
  if String.eqb upper "A" || String.eqb upper "AAAA" then
    match ParseAddr data with
    | Some ip => Some (Address name ttl ip providerData)
    | None => fallback
    end
  else if String.eqb upper "TXT" then Some (TXT name ttl data providerData)
  else if String.eqb upper "CNAME" then Some (CNAME name ttl data providerData)
  else if String.eqb upper "MX" then
    match strings.SplitN data " " 2 with
    | [p0; p1] =>
        match strconv.Atoi p0 with
        | inl preference => Some (MX name ttl (uint16 preference) p1 providerData)
        | inr _ => fallback
        end
    | _ => fallback
    end
  else if String.eqb upper "SRV" then
    match strings.Fields data with
    | [p0; p1; p2; p3] =>
        match strconv.Atoi p0, strconv.Atoi p1, strconv.Atoi p2 with
        | inl priority, inl weight, inl port =>
            let '(service, transport, name') := splitServiceName name in
            Some (SRV service transport name' ttl
                    (uint16 priority) (uint16 weight) (uint16 port) p3 providerData)
        | _, _, _ => fallback
        end
    | _ => fallback
    end
  else if String.eqb upper "NS" then Some (NS name ttl data providerData)
  else if String.eqb upper "CAA" then
    match strings.SplitN data " " 3 with
    | [p0; p1; p2] =>
        match strconv.Atoi p0 with
        | inl flags => Some (CAA name ttl (uint8 flags) p1 p2 providerData)
        | inr _ => fallback
        end
    | _ => fallback
    end
  else fallback.

(** Modelled from the spec: the [RR()] methods of the libdns record structs,
    which belong to the dependency and are not in this repository.  The
    type names the kind ("A" or "AAAA" by the family of the address), the
    composite data is recomposed from the fields ([MX] as "pref target",
    [SRV] as "priority weight port target", [CAA] as "flags tag value"), and
    the name is the record's name unmodified: the service and the transport
    of an [SRV] record are not put back into it. *)
Definition RRof (r : RecordValue) : RR :=
  match r with
  | Address name ttl ip _ =>
      mkRR name ttl (if Is6 ip then "AAAA" else "A") (AddrString ip)
  | TXT name ttl text _ => mkRR name ttl "TXT" text
  | CNAME name ttl target _ => mkRR name ttl "CNAME" target
  | MX name ttl preference target _ =>
      mkRR name ttl "MX" (strconv.FormatUint preference +:+ " " +:+ target)
  | SRV _ _ name ttl priority weight port target _ =>
      mkRR name ttl "SRV"
        (strconv.FormatUint priority +:+ " " +:+ strconv.FormatUint weight +:+ " "
           +:+ strconv.FormatUint port +:+ " " +:+ target)
  | NS name ttl target _ => mkRR name ttl "NS" target
  | CAA name ttl flags tag value _ =>
      mkRR name ttl "CAA" (strconv.FormatUint flags +:+ " " +:+ tag +:+ " " +:+ value)
  | Generic rr => rr
  | Other rr => rr
  end.

(** [record.RR()] on an interface value: a method call on the nil interface
    panics. *)
Definition callRR (record : libdnsRecord) : outcome RR :=
  match record with
  | Some r => Ret (RRof r)
  | None => Panic "invalid memory address or nil pointer dereference"
  end.

Definition mergeWithExistingLibdnsRecord (zone : string) (existingRecord : libdnsRecord)
    (linodeRecord : DomainRecord) : outcome libdnsRecord :=
  let newRecord := convertToLibdnsRecord zone linodeRecord in
  match existingRecord with
  | Some _ =>
      match callRR existingRecord with
      | Panic msg => Panic msg
      | Ret existingRR =>
          match callRR newRecord with
          | Panic msg => Panic msg
          | Ret newRR =>
              if String.eqb (rrType existingRR) (rrType newRR) then Ret newRecord
              else Ret newRecord
          end
      end
  | None => Ret newRecord
  end.

(** The [ProviderData] field of a record struct, when it is a non-nil
    [map[string]interface{}]. *)
Definition asProviderMap (providerData : any) : option (gmap string any) :=
  match providerData with
  | anyMap data => Some data
  | _ => None
  end.

Definition getProviderData (record : libdnsRecord) : option (gmap string any) :=
  match record with
  | Some (Address _ _ _ pd) => asProviderMap pd
  | Some (TXT _ _ _ pd) => asProviderMap pd
  | Some (CNAME _ _ _ pd) => asProviderMap pd
  | Some (MX _ _ _ _ pd) => asProviderMap pd
  | Some (SRV _ _ _ _ _ _ _ _ pd) => asProviderMap pd
  | Some (NS _ _ _ pd) => asProviderMap pd
  | Some (CAA _ _ _ _ _ pd) => asProviderMap pd
  | _ => None
  end.

(** The [ProviderData] field of a record value; [libdns.RR] has none. *)
Definition providerDataField (r : RecordValue) : option any :=
  match r with
  | Address _ _ _ pd | TXT _ _ _ pd | CNAME _ _ _ pd | MX _ _ _ _ pd
  | SRV _ _ _ _ _ _ _ _ pd | NS _ _ _ pd | CAA _ _ _ _ _ pd => Some pd
  | Generic _ | Other _ => None
  end.

(** The generic record that carries a wire record's type and data verbatim. *)
Definition rawRecord (zone : string) (linodeRecord : DomainRecord) : RR :=
  mkRR (RelativeName (Name linodeRecord) zone) (time.seconds (TTLSec linodeRecord))
    (Type_ linodeRecord) (Target linodeRecord).

Definition parses (s : string) : bool :=
  match strconv.Atoi s with
  | inl _ => true
  | inr _ => false
  end.

(** The decoding table of the specification: whether the data of a wire
    record of the given upper-cased type has the format of its kind. *)
Definition decodable (upper data : string) : bool :=
  if String.eqb upper "A" || String.eqb upper "AAAA" then
    match ParseAddr data with Some _ => true | None => false end
  else if String.eqb upper "TXT" || String.eqb upper "CNAME" || String.eqb upper "NS"
  then true
  else if String.eqb upper "MX" then
    match strings.SplitN data " " 2 with
    | [p0; _] => parses p0
    | _ => false
    end
  else if String.eqb upper "SRV" then
    match strings.Fields data with
    | [p0; p1; p2; _] => parses p0 && parses p1 && parses p2
    | _ => false
    end
  else if String.eqb upper "CAA" then
    match strings.SplitN data " " 3 with
    | [p0; _; _] => parses p0
    | _ => false
    end
  else false.

Definition isService (record : libdnsRecord) : bool :=
  match record with
  | Some (SRV _ _ _ _ _ _ _ _ _) => true
  | _ => false
  end.

(** The name split in the words of the specification, which names no
    condition on the number of parts: of the at most three dot-separated
    parts of the name, the first two minus their leading "_" are the
    service and the transport, and the remainder (or the empty string) is
    the residual name. *)
Definition specifiedServiceSplit (name : string) : string * string * string :=
  let parts := strings.SplitN name "." 3 in
  (strings.TrimPrefix (nth 0 parts EmptyString) "_",
   strings.TrimPrefix (nth 1 parts EmptyString) "_",
   nth 2 parts EmptyString).

(** The type assertion [v.(string)]. *)
Definition assertString (v : any) : outcome string :=
  match v with
  | anyString s => Ret s
  | _ => Panic "interface conversion: interface {} is not string"
  end.

(** The wire fields sent for a record: [RR()] with the name rendered
    relative to the zone and the TTL in whole seconds. *)
Definition recordOptions (zone : string) (rr : RR) : DomainRecordOptions :=
  mkOptions (rrType rr) (RelativeName (rrName rr) zone) (rrData rr)
    (time.int_of_float64 (time.Seconds (rrTTL rr))).


(** The wire record that a store answers with when it keeps the fields it
    was sent unchanged and assigns the identifier [recordID]. *)
Definition wireRecordFor (recordID : Z) (opts : DomainRecordOptions) : DomainRecord :=
  mkDomainRecord recordID (optType opts) (optName opts) (optTarget opts) (optTTLSec opts).

Definition nameOf (r : RecordValue) : string := rrName (RRof r).

Definition ttlOf (r : RecordValue) : time.Duration := rrTTL (RRof r).

(** The name is already relative to the zone. *)
Definition canonicalName (zone : string) (r : RecordValue) : Prop :=
  RelativeName (nameOf r) zone = nameOf r.

(** The data of a record of a supported kind is in the format of its kind:
    an address that its literal parses back to, numbers within their
    types, an SRV target that is a single field, a CAA tag without a
    space. *)
Definition canonicalData (r : RecordValue) : Prop :=
  match r with
  | Address _ _ ip _ => ParseAddr (AddrString ip) = Some ip
  | TXT _ _ _ _ | CNAME _ _ _ _ | NS _ _ _ _ => True
  | MX _ _ preference _ _ => 0 <= preference < 2 ^ 16
  | SRV _ _ _ _ priority weight port target _ =>
      0 <= priority < 2 ^ 16 /\ 0 <= weight < 2 ^ 16 /\ 0 <= port < 2 ^ 16 /\
      strings.Fields target = [target]
  | CAA _ _ flags tag _ _ => 0 <= flags < 2 ^ 8 /\ strings.Cut tag " " = None
  | Generic _ | Other _ => False
  end.

(** The duration is an [int64] and a whole number of seconds. *)
Definition wholeSeconds (ttl : time.Duration) : Prop :=
  - 2 ^ 63 <= ttl < 2 ^ 63 /\ ttl mod time.Second = 0.

Definition withProviderData (providerData : any) (r : RecordValue) : RecordValue :=
  match r with
  | Address name ttl ip _ => Address name ttl ip providerData
  | TXT name ttl text _ => TXT name ttl text providerData
  | CNAME name ttl target _ => CNAME name ttl target providerData
  | MX name ttl preference target _ => MX name ttl preference target providerData
  | SRV service transport name ttl priority weight port target _ =>
      SRV service transport name ttl priority weight port target providerData
  | NS name ttl target _ => NS name ttl target providerData
  | CAA name ttl flags tag value _ => CAA name ttl flags tag value providerData
  | Generic rr => Generic rr
  | Other rr => Other rr
  end.

(** The decode-side split of an SRV record's name, which encoding does not
    undo; every other record is left as it is. *)
Definition splitService (r : RecordValue) : RecordValue :=
  match r with
  | SRV _ _ name ttl priority weight port target providerData =>
      let '(service, transport, name') := splitServiceName name in
      SRV service transport name' ttl priority weight port target providerData
  | _ => r
  end.

End Model.

(** ** The remote record store *)

(** The methods of [linodego.Client] that the client calls, as transitions
    of an opaque store.  A method returning [(T, error)] yields a [result];
    a successful call yields a record, never a nil pointer. *)
Class LinodeClient := {
  Store : Type;
  ApiError : Type;
  apiListDomainRecords : Z -> Store -> result ApiError (list DomainRecord) * Store;
  apiCreateDomainRecord :
    Z -> DomainRecordOptions -> Store -> result ApiError DomainRecord * Store;
  apiUpdateDomainRecord :
    Z -> Z -> DomainRecordOptions -> Store -> result ApiError DomainRecord * Store;
  apiDeleteDomainRecord : Z -> Z -> Store -> option ApiError * Store;
}.

(** A remote call, as it is logged. *)
Inductive Call :=
  | CallList (domainID : Z)
  | CallCreate (domainID : Z) (opts : DomainRecordOptions)
  | CallUpdate (domainID recordID : Z) (opts : DomainRecordOptions)
  | CallDelete (domainID recordID : Z).

Definition isCreate (c : Call) : bool :=
  match c with CallCreate _ _ => true | _ => false end.

Definition isUpdate (c : Call) : bool :=
  match c with CallUpdate _ _ _ => true | _ => false end.

Section Client.

Context `{Imports} `{LinodeClient}.

(** Go [error] values that the client returns. *)
Inductive error :=
  | errorf (msg : string)
  | errorfWrap (msg : string) (cause : ApiError)
  | numError (e : strconv.NumError)
  | apiError (e : ApiError).

(** The state a client method runs in: the remote store and the calls
    issued so far, oldest first. *)
Record World := mkWorld { store : Store; calls : list Call }.

(** A client method: it may issue remote calls and may panic. *)
Definition M (A : Type) : Type := World -> outcome A * World.

#[export] Instance M_ret : MRet M := fun A a w => (Ret a, w).

#[export] Instance M_bind : MBind M := fun A B f m w =>
  match m w with
  | (Ret a, w') => f a w'
  | (Panic msg, w') => (Panic msg, w')
  end.

Definition lift {A} (o : outcome A) : M A := fun w => (o, w).

Definition remote {A} (c : Call) (step : Store -> A * Store) : M A := fun w =>
  let '(a, st) := step (store w) in
  (Ret a, mkWorld st (calls w ++ [c])).

Definition ListDomainRecords (domainID : Z) : M (result ApiError (list DomainRecord)) :=
  remote (CallList domainID) (apiListDomainRecords domainID).

Definition CreateDomainRecord (domainID : Z) (opts : DomainRecordOptions)
  : M (result ApiError DomainRecord) :=
  remote (CallCreate domainID opts) (apiCreateDomainRecord domainID opts).

Definition UpdateDomainRecord (domainID recordID : Z) (opts : DomainRecordOptions)
  : M (result ApiError DomainRecord) :=
  remote (CallUpdate domainID recordID opts) (apiUpdateDomainRecord domainID recordID opts).

Definition DeleteDomainRecord (domainID recordID : Z) : M (option ApiError) :=
  remote (CallDelete domainID recordID) (apiDeleteDomainRecord domainID recordID).

Definition listDomainRecords (zone : string) (domainID : Z)
  : M (result error (list libdnsRecord)) :=
  r ← ListDomainRecords domainID;
  match r with
  | fail err => mret (fail (errorfWrap "could not list domain records" err))
  | ok linodeRecords =>
      mret (ok (fold_left
                  (fun records linodeRecord =>
                     let record := convertToLibdnsRecord zone linodeRecord in
                     match record with
                     | Some _ => records ++ [record]
                     | None => records
                     end)
                  linodeRecords []))
  end.

Definition createDomainRecord (zone : string) (domainID : Z) (record : libdnsRecord)
  : M (result error libdnsRecord) :=
  rr ← lift (callRR record);
  r ← CreateDomainRecord domainID (recordOptions zone rr);
  match r with
  | fail err => mret (fail (apiError err))
  | ok addedLinodeRecord =>
      merged ← lift (mergeWithExistingLibdnsRecord zone record addedLinodeRecord);
      mret (ok merged)
  end.

Definition updateDomainRecord (zone : string) (domainID : Z) (record : libdnsRecord)
    (recordIDStr : string) : M (result error libdnsRecord) :=
  rr ← lift (callRR record);
  match strconv.Atoi recordIDStr with
  | inr err => mret (fail (numError err))
  | inl recordID =>
      r ← UpdateDomainRecord domainID recordID (recordOptions zone rr);
      match r with
      | fail err => mret (fail (apiError err))
      | ok updatedLinodeRecord =>
          merged ← lift (mergeWithExistingLibdnsRecord zone record updatedLinodeRecord);
          mret (ok merged)
      end
  end.

Definition createOrUpdateDomainRecord (zone : string) (domainID : Z)
    (record : libdnsRecord) : M (result error libdnsRecord) :=
  let create :=
    r ← createDomainRecord zone domainID record;
    match r with
    | fail err => mret (fail err)
    | ok addedRecord => mret (ok addedRecord)
    end in
  match getProviderData record with
  | Some providerData =>
      match providerData !! "id" with
      | Some id =>
          recordIDStr ← lift (assertString id);
          r ← updateDomainRecord zone domainID record recordIDStr;
          match r with
          | fail err => mret (fail err)
          | ok updatedRecord => mret (ok updatedRecord)
          end
      | None => create
      end
  | None => create
  end.

Definition deleteDomainRecord (domainID : Z) (record : libdnsRecord)
  : M (option error) :=
  match getProviderData record with
  | None => mret (Some (errorf "record does not have provider data with ID"))
  | Some providerData =>
      match providerData !! "id" with
      | None => mret (Some (errorf "record does not have ID in provider data"))
      | Some id =>
          idStr ← lift (assertString id);
          match strconv.Atoi idStr with
          | inr err => mret (Some (numError err))
          | inl recordID =>
              r ← DeleteDomainRecord domainID recordID;
              mret (apiError <$> r)
          end
      end
  end.

End Client.

(** ** Instances to evaluate the model on *)

Module Instances.

Definition HasSuffix (s suffix : string) : bool :=
  (String.length suffix <=? String.length s)%nat &&
  String.eqb (string_drop (String.length s - String.length suffix) s) suffix.

Definition TrimSuffix (s suffix : string) : string :=
  if HasSuffix s suffix
  then String.substring 0 (String.length s - String.length suffix) s
  else s.

(** A rendering of a name relative to a zone: the zone suffix and the
    trailing dots are dropped. *)
Definition relativeName (fqdn zone : string) : string :=
  TrimSuffix (TrimSuffix (TrimSuffix fqdn ".") (TrimSuffix zone ".")) ".".

(** An IPv4 address, as its four octets. *)
Definition IPv4 : Type := Z * Z * Z * Z.

Definition parseOctet (s : string) : option Z :=
  match s with
  | EmptyString => None
  | String c rest =>
      if byte_is c 48 && negb (String.eqb rest EmptyString) then None
      else if (3 <? String.length s)%nat then None
      else
        match strconv.ParseUint s with
        | inl n => if n <=? 255 then Some n else None
        | inr _ => None
        end
  end.

Definition parseIPv4 (s : string) : option IPv4 :=
  match strings.SplitN s "." (-1) with
  | [a; b; c; d] =>
      match parseOctet a, parseOctet b, parseOctet c, parseOctet d with
      | Some a', Some b', Some c', Some d' => Some (a', b', c', d')
      | _, _, _, _ => None
      end
  | _ => None
  end.

Definition formatIPv4 (ip : IPv4) : string :=
  let '(a, b, c, d) := ip in
  strconv.FormatUint a +:+ "." +:+ strconv.FormatUint b +:+ "." +:+
  strconv.FormatUint c +:+ "." +:+ strconv.FormatUint d.

(** Imports for ASCII input and IPv4 addresses. *)
Definition asciiImports : Imports := {|
  Addr := IPv4;
  ParseAddr := parseIPv4;
  AddrString := formatIPv4;
  Is6 := fun _ => false;
  mapToUpper := fun s => s;
  RelativeName := relativeName;
|}.

(** A record store held in memory: the records of every domain, and the
    identifier the next created record gets. *)
Record MemStore := mkMemStore { nextID : Z; stored : list (Z * DomainRecord) }.

Definition ownedBy (domainID recordID : Z) (entry : Z * DomainRecord) : bool :=
  (fst entry =? domainID) && (ID (snd entry) =? recordID).

Definition memList (domainID : Z) (st : MemStore)
  : result string (list DomainRecord) * MemStore :=
  (ok (map snd (filter (fun entry => fst entry = domainID) (stored st))), st).

Definition memCreate (domainID : Z) (opts : DomainRecordOptions) (st : MemStore)
  : result string DomainRecord * MemStore :=
  let r := wireRecordFor (nextID st) opts in
  (ok r, mkMemStore (nextID st + 1) (stored st ++ [(domainID, r)])).

Definition memUpdate (domainID recordID : Z) (opts : DomainRecordOptions) (st : MemStore)
  : result string DomainRecord * MemStore :=
  if existsb (ownedBy domainID recordID) (stored st) then
    let r := wireRecordFor recordID opts in
    (ok r,
     mkMemStore (nextID st)
       (map (fun entry => if ownedBy domainID recordID entry then (domainID, r) else entry)
            (stored st)))
  else (fail "Not found", st).

Definition memDelete (domainID recordID : Z) (st : MemStore)
  : option string * MemStore :=
  if existsb (ownedBy domainID recordID) (stored st) then
    (None,
     mkMemStore (nextID st)
       (filter (fun entry => ownedBy domainID recordID entry = false) (stored st)))
  else (Some "Not found", st).

Definition memClient : LinodeClient := {|
  Store := MemStore;
  ApiError := string;
  apiListDomainRecords := memList;
  apiCreateDomainRecord := memCreate;
  apiUpdateDomainRecord := memUpdate;
  apiDeleteDomainRecord := memDelete;
|}.

(** Example inputs. *)

Definition zone : string := "example.com.".

Definition idData (id : string) : any := anyMap {[ "id" := anyString id ]}.

Definition srvWire : DomainRecord :=
  mkDomainRecord 7 "SRV" "_sip._tcp.example" "10 20 5060 sip.example.com" 300.

(** An SRV wire record whose name starts with "_" and holds no dot. *)
Definition srvWireNoDot : DomainRecord :=
  mkDomainRecord 7 "srv" "_sip" "10 20 5060 sip.example.com" 300.

Definition mxWire : DomainRecord :=
  mkDomainRecord 8 "MX" "@" "10 mail.example.com" 300.

Definition mxWireBad : DomainRecord :=
  mkDomainRecord 9 "mx" "@" "not-a-number host" 300.

Definition caaWire : DomainRecord :=
  mkDomainRecord 10 "CAA" "@" "300 issue letsencrypt.org" 300.

Definition srvRecord : @RecordValue asciiImports :=
  @SRV asciiImports "" "" "_sip._tcp.example" 300000000000 10 20 5060
    "sip.example.com" anyNil.

(** A TXT record with a TTL of one and a half seconds. *)
Definition txtRecordHalfSecond : @RecordValue asciiImports :=
  @TXT asciiImports "www" 1500000000 "v=spf1 -all" anyNil.

Definition txtRecordStored : @RecordValue asciiImports :=
  @TXT asciiImports "www" 300000000000 "v=spf1 -all" (idData "42").

Definition txtRecordNew : @RecordValue asciiImports :=
  @TXT asciiImports "www" 300000000000 "v=spf1 -all" anyNil.

Definition txtRecordBadId : @RecordValue asciiImports :=
  @TXT asciiImports "www" 300000000000 "v=spf1 -all" (idData "forty-two").

Definition txtOptions : DomainRecordOptions := mkOptions "TXT" "www" "v=spf1 -all" 300.

(** A store that holds the record 42 of domain 1. *)
Definition oneRecordWorld : @World memClient :=
  @mkWorld memClient (mkMemStore 43 [(1, wireRecordFor 42 txtOptions)]) [].

(** A store that holds two records of domain 1, the second one with
    malformed MX data. *)
Definition twoRecordWorld : @World memClient :=
  @mkWorld memClient (mkMemStore 43 [(1, srvWire); (1, mxWireBad)]) [].

End Instances.

(** ** Zone lookup *)

(** [linodego.Domain], with the field the client reads. *)
Record Domain := mkDomain { Domain_ID : Z; Domain_Domain : string }.

(** What [getDomainIDByZone] calls: [libdns.AbsoluteName]; the JSON text of
    the filter that compares the field "domain" for equality with a name
    ([Filter.AddField] then [Filter.MarshalJSON]); and [Client.ListDomains]
    with that filter. *)
Class DomainsClient `{LinodeClient} := {
  AbsoluteName : string -> string -> string;
  FilterError : Type;
  marshalDomainFilter : string -> result FilterError string;
  apiListDomains : string -> Store -> result ApiError (list Domain) * Store;
}.

Section Lookup.

Context `{DomainsClient}.

(** The errors of the zone lookup: the one of the filter, or one the client
    makes. *)
Inductive zoneError :=
  | filterError (e : FilterError)
  | clientError (e : error).

(** The result, the store afterwards, and the filters of the [ListDomains]
    calls issued. *)
Definition getDomainIDByZone (zone : string) (st : Store)
  : result zoneError Z * Store * list string :=
  match marshalDomainFilter (AbsoluteName zone EmptyString) with
  | fail err => (fail (filterError err), st, [])
  | ok filter =>
      let '(r, st') := apiListDomains filter st in
      match r with
      | fail err =>
          (fail (clientError (errorfWrap "could not list domains" err)), st', [filter])
      | ok domains =>
          match domains with
          | [] =>
              (fail (clientError (errorf "could not find the domain provided")), st',
               [filter])
          | d :: _ => (ok (Domain_ID d), st', [filter])
          end
      end
  end.

End Lookup.

(** ** Client set-up *)

(** [linodego.Client] with [linodego.NewClient(http.DefaultClient)] and the
    three setters that [init] calls. *)
Class ClientSetup := {
  Client : Type;
  NewClient : Client;
  SetToken : string -> Client -> Client;
  SetBaseURL : string -> Client -> Client;
  SetAPIVersion : string -> Client -> Client;
}.

Section Setup.

Context `{ClientSetup}.

(** The fields of [Provider] that [init] reads and writes; [once] tells
    whether the [sync.Once] has run. *)
Record Provider := mkProvider {
  APIToken : string;
  APIURL : string;
  APIVersion : string;
  client : Client;
  once : bool;
}.

Definition init (p : Provider) : Provider :=
  if once p then p
  else
    let c0 := NewClient in
    let c1 := if String.eqb (APIToken p) EmptyString then c0 else SetToken (APIToken p) c0 in
    let c2 := if String.eqb (APIURL p) EmptyString then c1 else SetBaseURL (APIURL p) c1 in
    let c3 :=
      if String.eqb (APIVersion p) EmptyString then c2 else SetAPIVersion (APIVersion p) c2 in
    mkProvider (APIToken p) (APIURL p) (APIVersion p) c3 true.

(** Assigning the three settings of a provider. *)
Definition configure (token url version : string) (p : Provider) : Provider :=
  mkProvider token url version (client p) (once p).

End Setup.

(** ** Further readings of records *)

Section Readings.

Context `{Imports}.

(** The [TTL] field of a record value. *)
Definition recordTTL (r : RecordValue) : time.Duration :=
  match r with
  | Address _ ttl _ _ | TXT _ ttl _ _ | CNAME _ ttl _ _ | MX _ ttl _ _ _
  | SRV _ _ _ ttl _ _ _ _ _ | NS _ ttl _ _ | CAA _ ttl _ _ _ _ => ttl
  | Generic rr | Other rr => rrTTL rr
  end.

Definition isGeneric (r : RecordValue) : bool :=
  match r with
  | Generic _ => true
  | _ => false
  end.

End Readings.

(** A wire record with another type, and with another target. *)
Definition withType (ty : string) (w : DomainRecord) : DomainRecord :=
  mkDomainRecord (ID w) ty (Name w) (Target w) (TTLSec w).

Definition withTarget (target : string) (w : DomainRecord) : DomainRecord :=
  mkDomainRecord (ID w) (Type_ w) (Name w) target (TTLSec w).

(** A string of ASCII white space: tabs, line feeds, vertical tabs, form
    feeds, carriage returns and spaces. *)
Fixpoint allSpace (s : string) : bool :=
  match s with
  | EmptyString => true
  | String c s' => (byte_in c 9 13 || byte_is c 32) && allSpace s'
  end.

(** ** Further instances *)

Module MoreInstances.

Import Instances.

(** The domains of the store held in memory. *)
Definition memDomains : list Domain :=
  [mkDomain 1 "example.com"; mkDomain 2 "example.org"; mkDomain 3 "example.com"].

Definition memListDomains (name : string) (st : MemStore)
  : result string (list Domain) * MemStore :=
  (ok (filter (fun d => Domain_Domain d = name) memDomains), st).

(** A lookup whose filter text is the name itself, and whose absolute name
    is the zone without its trailing dot. *)
Definition memDomainsClient : @DomainsClient memClient :=
  @Build_DomainsClient memClient
    (fun name _ => TrimSuffix name ".") string (fun name => ok name) memListDomains.

(** A client described by its token, base URL and API version. *)
Definition settingsSetup : ClientSetup := {|
  Client := string * string * string;
  NewClient := (EmptyString, "https://api.linode.com", "v4");
  SetToken := fun token c => (token, snd (fst c), snd c);
  SetBaseURL := fun url c => (fst (fst c), url, snd c);
  SetAPIVersion := fun version c => (fst (fst c), snd (fst c), version);
|}.

Definition freshProvider : @Provider settingsSetup :=
  @mkProvider settingsSetup "token-1" EmptyString "v4beta"
    (EmptyString, EmptyString, EmptyString) false.

Definition caaWireGood : DomainRecord :=
  mkDomainRecord 11 "caa" "@" "0 issue letsencrypt.org; validationmethods=dns-01" 300.

Definition aWire : DomainRecord := mkDomainRecord 12 "a" "www" "203.0.113.5" 300.

Definition ptrWire : DomainRecord := mkDomainRecord 13 "PTR" "5" "host.example.com" 300.

Definition srvWirePadded : DomainRecord :=
  mkDomainRecord 7 "SRV" "_sip._tcp.example" "  10 20 5060 sip.example.com " 300.

Definition mxWireLeadingSpace : DomainRecord :=
  mkDomainRecord 8 "MX" "@" " 10 mail.example.com" 300.

(** A store in which record 12 of domain 1 is the address record [aWire]. *)
Definition addressWorld : @World memClient :=
  @mkWorld memClient (mkMemStore 13 [(1, aWire)]) [].

(** A client whose every call is refused. *)
Definition deniedClient : LinodeClient := {|
  Store := unit;
  ApiError := string;
  apiListDomainRecords := fun _ st => (fail "Unauthorized", st);
  apiCreateDomainRecord := fun _ _ st => (fail "Unauthorized", st);
  apiUpdateDomainRecord := fun _ _ _ st => (fail "Unauthorized", st);
  apiDeleteDomainRecord := fun _ _ st => (Some "Unauthorized", st);
|}.

Definition deniedWorld : @World deniedClient := @mkWorld deniedClient tt [].

(** An MX wire record whose preference does not fit 16 bits. *)
Definition mxWireLarge : DomainRecord :=
  mkDomainRecord 9 "MX" "@" "70000 host" 300.

(** A TXT record whose provider data maps "id" to an integer. *)
Definition txtRecordIntId : @RecordValue asciiImports :=
  @TXT asciiImports "www" 300000000000 "v=spf1 -all" (anyMap {[ "id" := anyInt 42 ]}).

End MoreInstances.

(** * Properties *)

(** ** Strings and numbers *)

Lemma append_cons c s t : String c s +:+ t = String c (s +:+ t).
Proof. reflexivity. Qed.

Lemma append_nil t : EmptyString +:+ t = t.
Proof. reflexivity. Qed.

Lemma append_assoc s t u : (s +:+ t) +:+ u = s +:+ t +:+ u.
Proof.
  induction s as [|c s IH]; [done|].
  rewrite !append_cons. by rewrite IH.
Qed.

Section Decimal.

Import strconv.

Lemma digitChar_val d : 0 <= d < 10 -> byte_val (digitChar d) = 48 + d.
Proof.
  intros Hd. unfold byte_val, digitChar.
  rewrite N_ascii_embedding; lia.
Qed.

Lemma digitChar_digit d : 0 <= d < 10 -> byte_in (digitChar d) 48 57 = true.
Proof. intros Hd. unfold byte_in. rewrite digitChar_val by done. lia. Qed.

Lemma formatBits_allDigits fuel u a :
  0 <= u -> allDigits a = true -> allDigits (formatBits fuel u a) = true.
Proof.
  revert u a. induction fuel as [|fuel IH]; intros u a Hu Ha; simpl; [done|].
  destruct (Z.ltb_spec u 10).
  - simpl. rewrite digitChar_digit by lia. done.
  - apply IH; [apply Z.div_pos; lia|].
    simpl. rewrite digitChar_digit; [done|]. apply Z.mod_pos_bound. lia.
Qed.

Lemma formatBits_nonempty fuel u a :
  (fuel <> 0%nat \/ a <> EmptyString) -> formatBits fuel u a <> EmptyString.
Proof.
  revert u a. induction fuel as [|fuel IH]; intros u a Hne; simpl.
  - by destruct Hne.
  - destruct (u <? 10); [done|]. apply IH. by right.
Qed.

(** Reading back the digits that [formatBits] writes in front of [a]. *)
Lemma parseUintFrom_formatBits fuel u a :
  0 <= u <= maxUint64 -> u < 10 ^ Z.of_nat fuel ->
  parseUintFrom (formatBits fuel u a) 0 = parseUintFrom a u.
Proof.
  revert u a. induction fuel as [|fuel IH]; intros u a Hu Hf.
  - change (10 ^ Z.of_nat 0) with 1 in Hf. assert (u = 0) as -> by lia. done.
  - cbn [formatBits]. destruct (Z.ltb_spec u 10) as [Hlt|Hge].
    + cbn [parseUintFrom]. rewrite digitChar_digit, digitChar_val by lia.
      unfold maxUint64 in *. simpl.
      replace (0 * 10 + (48 + u - 48)) with u by lia.
      destruct (Z.ltb_spec (2 ^ 64 - 1) u); [lia|]. done.
    + assert (Hq : 0 <= u / 10 <= maxUint64).
      { split; [apply Z.div_pos; lia|]. apply Z.div_le_upper_bound; lia. }
      rewrite IH; [|done|].
      2: { apply Z.div_lt_upper_bound; [lia|].
           rewrite Nat2Z.inj_succ, Z.pow_succ_r in Hf; lia. }
      pose proof (Z.mod_pos_bound u 10 ltac:(lia)) as Hm.
      cbn [parseUintFrom]. rewrite digitChar_digit, digitChar_val by lia.
      pose proof (Z.div_mod u 10 ltac:(lia)) as Hdm.
      assert (Hcut : u / 10 <= maxUint64 / 10) by (apply Z.div_le_mono; lia).
      cbn [negb].
      destruct (Z.leb_spec (maxUint64 / 10 + 1) (u / 10)); [lia|].
      replace (u / 10 * 10 + (48 + u mod 10 - 48)) with u by lia.
      destruct (Z.ltb_spec maxUint64 u); [lia|]. done.
Qed.

Lemma fuel_enough u : 0 <= u -> u < 10 ^ Z.of_nat (S (Z.to_nat (Z.log2 u))).
Proof.
  intros Hu. rewrite Nat2Z.inj_succ, Z2Nat.id by apply Z.log2_nonneg.
  destruct (Z.eq_dec u 0) as [->|Hne]; [done|].
  pose proof (Z.log2_spec u ltac:(lia)) as [_ Hlt].
  eapply Z.lt_le_trans; [exact Hlt|].
  apply Z.pow_le_mono_l. pose proof (Z.log2_nonneg u). lia.
Qed.

Lemma FormatUint_allDigits u : 0 <= u -> allDigits (FormatUint u) = true.
Proof. intros Hu. by apply formatBits_allDigits. Qed.

Lemma FormatUint_nonempty u : FormatUint u <> EmptyString.
Proof. apply formatBits_nonempty. by left. Qed.

Lemma ParseUint_FormatUint u : 0 <= u <= maxUint64 -> ParseUint (FormatUint u) = inl u.
Proof.
  intros Hu. unfold ParseUint.
  pose proof (FormatUint_nonempty u) as Hne.
  destruct (FormatUint u) eqn:Hf; [done|]. rewrite <- Hf.
  unfold FormatUint. rewrite parseUintFrom_formatBits; [done|done|].
  apply fuel_enough. lia.
Qed.

(** [Atoi] reads back what [FormatUint] writes. *)
Lemma Atoi_FormatUint u : 0 <= u < 2 ^ 63 -> Atoi (FormatUint u) = inl u.
Proof.
  intros Hu. unfold Atoi, ParseInt.
  pose proof (FormatUint_allDigits u ltac:(lia)) as Hd.
  pose proof (ParseUint_FormatUint u ltac:(unfold maxUint64; lia)) as Hp.
  destruct (FormatUint u) as [|c s] eqn:Hf; [done|].
  simpl in Hd. apply andb_true_iff in Hd as [Hc _].
  assert (byte_is c 43 = false /\ byte_is c 45 = false) as [-> ->].
  { unfold byte_in, byte_is in *. lia. }
  cbv zeta. cbn [orb]. rewrite Hp. cbn [negb andb].
  destruct (Z.leb_spec (2 ^ 63) u); [lia|]. done.
Qed.

(** [Atoi] reads back what [Itoa] writes, for every [int]. *)
Lemma Atoi_Itoa i : - 2 ^ 63 <= i < 2 ^ 63 -> Atoi (Itoa i) = inl i.
Proof.
  intros Hi. unfold Itoa, FormatInt.
  destruct (Z.ltb_spec i 0) as [Hneg|Hpos]; [|apply Atoi_FormatUint; lia].
  unfold Atoi, ParseInt.
  change (byte_is "-" 45) with true. change (byte_is "-" 43) with false.
  cbn [orb negb andb].
  rewrite ParseUint_FormatUint by (unfold maxUint64; lia).
  destruct (Z.ltb_spec (2 ^ 63) (- i)); [lia|]. f_equal. lia.
Qed.

End Decimal.

Lemma append_nil_r s : s +:+ EmptyString = s.
Proof. induction s as [|c s IH]; [done|]. rewrite append_cons. by rewrite IH. Qed.

Section Fields.

Import strings strconv.

Lemma spaceWidth_digit c s : byte_in c 48 57 = true -> spaceWidth (String c s) = 0%nat.
Proof.
  intros Hc. unfold spaceWidth.
  assert (byte_in c 9 13 = false /\ byte_is c 32 = false /\ byte_is c 194 = false /\
          byte_is c 225 = false /\ byte_is c 226 = false /\ byte_is c 227 = false)
    as (-> & -> & -> & -> & -> & ->).
  { unfold byte_in, byte_is in *. lia. }
  simpl. by destruct s as [|c1 [|c2 s2]].
Qed.

Lemma fieldsFrom_digits d rest cur :
  allDigits d = true ->
  fieldsFrom (d +:+ rest) 0 cur = fieldsFrom rest 0 (cur +:+ d).
Proof.
  revert cur. induction d as [|c d IH]; intros cur Hd.
  - by rewrite append_nil, append_nil_r.
  - simpl in Hd. apply andb_true_iff in Hd as [Hc Hd].
    rewrite append_cons. cbn [fieldsFrom].
    rewrite (spaceWidth_digit c) by done.
    rewrite IH by done. by rewrite append_assoc.
Qed.

(** A leading field of digits followed by a space is split off. *)
Lemma Fields_digits d rest :
  allDigits d = true -> d <> EmptyString ->
  Fields (d +:+ " " +:+ rest) = d :: Fields rest.
Proof.
  intros Hd Hne. unfold Fields. rewrite fieldsFrom_digits by done.
  rewrite append_nil. rewrite append_cons, append_nil.
  cbn [fieldsFrom]. simpl. by destruct d.
Qed.

End Fields.

(** ** Durations *)

Section Durations.

Import time.

Lemma digits2_pos_size m : digits2_pos m = Pos.size m.
Proof. induction m as [m IH|m IH|]; simpl; by rewrite ?IH. Qed.

Lemma digits2_pos_shift m k :
  digits2_pos (Pos.iter xO m k) = (digits2_pos m + k)%positive.
Proof.
  induction k as [|k IH] using Pos.peano_ind.
  - simpl. lia.
  - rewrite Pos.iter_succ. simpl. rewrite IH. lia.
Qed.

Lemma Zpos_shift m k : Z.pos (Pos.iter xO m k) = Z.pos m * 2 ^ Z.pos k.
Proof.
  induction k as [|k IH] using Pos.peano_ind.
  - simpl. lia.
  - rewrite Pos.iter_succ, Pos2Z.inj_xO, IH, Pos2Z.inj_succ, Z.pow_succ_r; lia.
Qed.

Lemma digits2_pos_bound m : Z.pos m < 2 ^ 53 -> Z.pos (digits2_pos m) <= 53.
Proof.
  intros Hm. rewrite digits2_pos_size.
  pose proof (Pos.size_le m) as Hle.
  destruct (Z.le_gt_cases (Z.pos (Pos.size m)) 53) as [|Hgt]; [done|exfalso].
  assert (2 ^ 54 <= Z.pos (2 ^ Pos.size m)).
  { rewrite Pos2Z.inj_pow. apply Z.pow_le_mono_r; lia. }
  lia.
Qed.

(** An integer below [2^53] in magnitude converts to [float64] and back
    without change. *)
Lemma float64_of_int_exact z :
  - 2 ^ 53 < z < 2 ^ 53 -> int_of_float64 (float64_of_int z) = z.
Proof.
  intros Hz. unfold float64_of_int, binary_normalize.
  assert (Hround : forall s m, Z.pos m < 2 ^ 53 ->
            int_of_float64 (binary_round 53 1024 s m 0) = cond_Zopp s (Z.pos m)).
  { intros s m Hm. pose proof (digits2_pos_bound m Hm) as Hd.
    unfold binary_round, shl_align, fexp, emin.
    assert (Hfexp : forall d, 1 <= d <= 53 -> Z.max (d - 53) (3 - 1024 - 53) = d - 53)
      by lia.
    rewrite Z.add_0_r, Hfexp by lia. rewrite Z.sub_0_r.
    assert (Haux : forall mz ez, Z.pos (digits2_pos mz) + ez = Z.pos (digits2_pos m) ->
              ez = Z.pos (digits2_pos m) - 53 ->
              binary_round_aux 53 1024 s (Z.pos mz) ez loc_Exact = S754_finite s mz ez).
    { intros mz ez Hdz Hez. unfold binary_round_aux, shr_fexp, fexp, emin.
      cbn [Zdigits2 shr_record_of_loc]. rewrite Hdz, Hfexp, <- Hez, Z.sub_diag by lia.
      cbn [shr shr_m loc_of_shr_record round_nearest_even Zdigits2 shr_record_of_loc].
      rewrite Hdz, Hfexp, <- Hez, Z.sub_diag by lia. cbn [shr shr_m].
      destruct (Z.leb_spec ez (1024 - 53)); [done|lia]. }
    destruct (Z.pos (digits2_pos m) - 53) as [|k|k] eqn:Hk; [|lia|].
    - rewrite Haux by lia. simpl. by rewrite Z.mul_1_r.
    - rewrite Haux; [|rewrite digits2_pos_shift; lia|done].
      cbn [int_of_float64]. destruct (Z.leb_spec 0 (Z.neg k)); [lia|].
      rewrite Zpos_shift. change (- Z.neg k) with (Z.pos k).
      rewrite Z.div_mul; [done|]. apply Z.pow_nonzero; lia. }
  destruct z as [|m|m]; [done| |].
  - rewrite Hround by lia. done.
  - rewrite Hround by lia. done.
Qed.

(** A duration of whole seconds survives the conversion to seconds and
    back. *)
Lemma seconds_of_whole_seconds ttl :
  - 2 ^ 63 <= ttl < 2 ^ 63 -> ttl mod Second = 0 ->
  seconds (int_of_float64 (Seconds ttl)) = ttl.
Proof.
  intros Hr Hm. unfold Seconds.
  assert (Hrem : Z.rem ttl Second = 0).
  { apply Z.rem_divide; [done|]. by apply Z.mod_divide. }
  assert (Hquot : ttl = Second * Z.quot ttl Second).
  { pose proof (Z.quot_rem' ttl Second). lia. }
  rewrite Hrem. set (s := Z.quot ttl Second) in *.
  assert (Hs : - 2 ^ 53 < s < 2 ^ 53) by (unfold Second in *; lia).
  change (SFdiv 53 1024 (float64_of_int 0) (float64_of_int 1000000000))
    with (S754_zero false).
  assert (Hadd : int_of_float64 (SFadd 53 1024 (float64_of_int s) (S754_zero false)) = s).
  { rewrite <- (float64_of_int_exact s Hs) at 2.
    destruct (float64_of_int s) as [[]| | |]; done. }
  rewrite Hadd. unfold seconds, wrap64. rewrite (Z.mul_comm s), <- Hquot.
  rewrite Z.mod_small; lia.
Qed.

End Durations.

Section Translator.

Context `{Imports}.

Lemma convert_not_nil zone w : exists r, convertToLibdnsRecord zone w = Some r.
Proof.
  unfold convertToLibdnsRecord.
  repeat case_match; eauto.
Qed.

Lemma convert_provider_data zone w r :
  convertToLibdnsRecord zone w = Some r ->
  match r with
  | Generic rr => rr = rawRecord zone w
  | Other _ => False
  | _ => providerDataField r
         = Some (anyMap {[ "id" := anyString (strconv.Itoa (ID w)) ]})
  end.
Proof.
  unfold convertToLibdnsRecord, rawRecord. intros Hr.
  repeat match type of Hr with
         | context [match ?x with _ => _ end] => destruct x eqn:?
         end; injection Hr as <-; reflexivity.
Qed.


Lemma merge_returns_new zone (existingRecord : libdnsRecord) w r :
  convertToLibdnsRecord zone w = Some r ->
  mergeWithExistingLibdnsRecord zone existingRecord w = Ret (Some r).
Proof.
  intros Hr. unfold mergeWithExistingLibdnsRecord. rewrite Hr.
  destruct existingRecord as [e|]; simpl; [|reflexivity].
  destruct (String.eqb _ _); reflexivity.
Qed.

(** C7: merging returns the record decoded from the server's wire record,
    whatever the existing record is (nil, of the same kind or of another
    kind): no field of the existing record is merged in. *)
Theorem C7_merge_is_decode zone (existingRecord : libdnsRecord) w :
  mergeWithExistingLibdnsRecord zone existingRecord w
  = Ret (convertToLibdnsRecord zone w).
Proof.
  destruct (convert_not_nil zone w) as [r Hr].
  rewrite Hr. destruct existingRecord as [existing|].
  - by apply merge_returns_new.
  - by apply merge_returns_new.
Qed.

(** *** Splitting *)

Lemma HasPrefix_app s prefix t :
  strings.HasPrefix s prefix = true -> strings.HasPrefix (s +:+ t) prefix = true.
Proof.
  revert s. induction prefix as [|p prefix IH]; intros [|c s]; simpl; try done.
  rewrite ?append_cons. destruct (Ascii.eqb c p); [apply IH | done].
Qed.

Lemma HasPrefix_drop s prefix :
  strings.HasPrefix s prefix = true ->
  s = prefix +:+ string_drop (String.length prefix) s.
Proof.
  revert s. induction prefix as [|p prefix IH]; intros [|c s]; simpl; try done.
  destruct (Ascii.eqb_spec c p) as [->|]; [|done].
  intros Hp. rewrite append_cons. f_equal. by apply IH.
Qed.

(** [Cut] splits at an instance of the separator, and the part before it
    holds no instance: the instance is the first one. *)
Lemma Cut_Some s c sep before after :
  strings.Cut s (String c sep) = Some (before, after) ->
  s = before +:+ String c sep +:+ after /\ strings.Cut before (String c sep) = None.
Proof.
  revert before after. induction s as [|x s IH]; intros before after.
  - simpl. done.
  - cbn [strings.Cut].
    destruct (strings.HasPrefix (String x s) (String c sep)) eqn:Hp.
    + intros [= <- <-]. split; [|done].
      by apply (HasPrefix_drop _ (String c sep)) in Hp.
    + destruct (strings.Cut s (String c sep)) as [[b a]|] eqn:Hc; [|done].
      intros [= <- <-]. destruct (IH _ _ eq_refl) as [-> Hb]. split; [done|].
      cbn [strings.Cut]. rewrite Hb.
      destruct (strings.HasPrefix (String x b) (String c sep)) eqn:Hp'; [|done].
      apply (HasPrefix_app _ _ (String c sep +:+ a)) in Hp'.
      rewrite append_cons in Hp'. congruence.
Qed.

Lemma Cut_None_cons x s c :
  strings.Cut (String x s) (String c EmptyString) = None ->
  x <> c /\ strings.Cut s (String c EmptyString) = None.
Proof.
  cbn [strings.Cut]. simpl.
  destruct (Ascii.eqb_spec x c) as [->|Hne]; [done|].
  destruct (strings.Cut s _) as [[??]|]; done.
Qed.

(** A string without the separator byte, followed by the separator, is cut
    right there. *)
Lemma Cut_app before c after :
  strings.Cut before (String c EmptyString) = None ->
  strings.Cut (before +:+ String c after) (String c EmptyString) = Some (before, after).
Proof.
  induction before as [|x b IH]; intros Hn.
  - rewrite append_nil. simpl. rewrite Ascii.eqb_refl. by destruct after.
  - apply Cut_None_cons in Hn as [Hne Hb].
    rewrite append_cons.
    cbn [strings.Cut]. rewrite (IH Hb). simpl.
    destruct (Ascii.eqb_spec x c); [done|]. reflexivity.
Qed.

Lemma genSplit_length s sep k :
  (1 <= length (strings.genSplit s sep k) <= S k)%nat.
Proof.
  revert s. induction k as [|k IH]; intros s; simpl; [lia|].
  destruct (strings.Cut s sep) as [[b a]|]; simpl; [|lia].
  specialize (IH a). lia.
Qed.

(** [SplitN s sep 2] splits on the first instance of a one-byte separator. *)
Lemma SplitN_2 s c :
  match strings.Cut s (String c EmptyString) with
  | Some (p0, p1) =>
      strings.SplitN s (String c EmptyString) 2 = [p0; p1] /\
      s = p0 +:+ String c p1 /\ strings.Cut p0 (String c EmptyString) = None
  | None => strings.SplitN s (String c EmptyString) 2 = [s]
  end.
Proof.
  unfold strings.SplitN. simpl.
  destruct (strings.Cut s _) as [[p0 p1]|] eqn:Hc; [|done].
  apply Cut_Some in Hc as [-> Hn]. done.
Qed.

(** *** Composite data *)

Lemma uint16_small n : 0 <= n < 2 ^ 16 -> uint16 n = n.
Proof. intros Hn. unfold uint16. by apply Z.mod_small. Qed.

Lemma uint8_small n : 0 <= n < 2 ^ 8 -> uint8 n = n.
Proof. intros Hn. unfold uint8. by apply Z.mod_small. Qed.

(** C5 (amended): a wire record of type MX (in any letter case) has its
    target split on the first space; with two parts and an integer first
    part the result is a MailExchange record whose preference is that
    integer converted to [uint16], which is the integer itself when it lies
    within 0 and 65535 and its remainder modulo 2^16 otherwise, and whose
    target is the second part; with no space, or a first part that is not
    an integer, the result is the Generic fallback. *)
Theorem C5_mx_decode zone w :
  ToUpper (Type_ w) = "MX" ->
  let name := RelativeName (Name w) zone in
  let ttl := time.seconds (TTLSec w) in
  let providerData := anyMap {[ "id" := anyString (strconv.Itoa (ID w)) ]} in
  match strings.Cut (Target w) " " with
  | Some (p0, p1) =>
      Target w = p0 +:+ " " +:+ p1 /\ strings.Cut p0 " " = None /\
      strings.SplitN (Target w) " " 2 = [p0; p1] /\
      match strconv.Atoi p0 with
      | inl preference =>
          convertToLibdnsRecord zone w
          = Some (MX name ttl (uint16 preference) p1 providerData) /\
          (0 <= preference < 2 ^ 16 -> uint16 preference = preference)
      | inr _ => convertToLibdnsRecord zone w = Some (Generic (rawRecord zone w))
      end
  | None =>
      strings.SplitN (Target w) " " 2 = [Target w] /\
      convertToLibdnsRecord zone w = Some (Generic (rawRecord zone w))
  end.
Proof.
  intros Hty name ttl providerData.
  unfold convertToLibdnsRecord. rewrite Hty. cbn [String.eqb Ascii.eqb Bool.eqb orb].
  pose proof (SplitN_2 (Target w) " ") as Hs.
  destruct (strings.Cut (Target w) " ") as [[p0 p1]|].
  - destruct Hs as (Hs & Ht & Hn). rewrite Hs.
    repeat split; try done.
    destruct (strconv.Atoi p0); [|done].
    split; [done | apply uint16_small].
  - rewrite Hs. done.
Qed.

(** [SplitN name "." 3] gives the name itself when it holds no dot, and
    otherwise two or three parts. *)
Lemma SplitN_3_shape name :
  strings.SplitN name "." 3 = [name] \/
  exists n0 n1 rest,
    strings.SplitN name "." 3 = n0 :: n1 :: rest /\ (length rest <= 1)%nat.
Proof.
  unfold strings.SplitN. simpl.
  destruct (strings.Cut name ".") as [[n0 after]|]; [right|by left].
  destruct (strings.Cut after ".") as [[n1 n2]|]; eauto 6.
Qed.

Lemma splitServiceName_spec name :
  (strings.HasPrefix name "_" = false ->
   splitServiceName name = (EmptyString, EmptyString, name)) /\
  (strings.HasPrefix name "_" = true -> strings.SplitN name "." 3 = [name] ->
   splitServiceName name = (EmptyString, EmptyString, name)) /\
  (forall n0 n1 rest,
     strings.HasPrefix name "_" = true ->
     strings.SplitN name "." 3 = n0 :: n1 :: rest ->
     splitServiceName name
     = (strings.TrimPrefix n0 "_", strings.TrimPrefix n1 "_",
        match rest with n2 :: _ => n2 | [] => EmptyString end)).
Proof.
  unfold splitServiceName. repeat split.
  - by intros ->.
  - by intros -> ->.
  - by intros n0 n1 rest -> ->.
Qed.

(** C4 (amended): a wire record of type SRV (in any letter case) decodes to
    a Service record exactly when its target has exactly four white-space
    separated fields of which the first three are integers, and to the
    Generic fallback otherwise.  The service and the transport are read off
    the zone-relative name when it starts with "_" and splits on "." into
    at least two parts: they are the first two parts minus a leading "_",
    and the third part (or the empty string) is the residual name.  A name
    that starts with "_" and holds no dot is kept whole, with empty
    service and transport, like a name that does not start with "_". *)
Theorem C4_srv_decode zone w :
  ToUpper (Type_ w) = "SRV" ->
  let name := RelativeName (Name w) zone in
  let ttl := time.seconds (TTLSec w) in
  let providerData := anyMap {[ "id" := anyString (strconv.Itoa (ID w)) ]} in
  (isService (convertToLibdnsRecord zone w) = true <->
   exists p0 p1 p2 p3 priority weight port,
     strings.Fields (Target w) = [p0; p1; p2; p3] /\ strconv.Atoi p0 = inl priority /\
     strconv.Atoi p1 = inl weight /\ strconv.Atoi p2 = inl port) /\
  (isService (convertToLibdnsRecord zone w) = false ->
   convertToLibdnsRecord zone w = Some (Generic (rawRecord zone w))) /\
  (forall p0 p1 p2 p3 priority weight port,
     strings.Fields (Target w) = [p0; p1; p2; p3] -> strconv.Atoi p0 = inl priority ->
     strconv.Atoi p1 = inl weight -> strconv.Atoi p2 = inl port ->
     exists service transport name',
       convertToLibdnsRecord zone w
       = Some (SRV service transport name' ttl (uint16 priority) (uint16 weight)
                 (uint16 port) p3 providerData) /\
       (strings.HasPrefix name "_" = false ->
        (service, transport, name') = (EmptyString, EmptyString, name)) /\
       (strings.HasPrefix name "_" = true -> strings.SplitN name "." 3 = [name] ->
        (service, transport, name') = (EmptyString, EmptyString, name)) /\
       (forall n0 n1 rest,
          strings.HasPrefix name "_" = true ->
          strings.SplitN name "." 3 = n0 :: n1 :: rest ->
          (length rest <= 1)%nat /\
          (service, transport, name')
          = (strings.TrimPrefix n0 "_", strings.TrimPrefix n1 "_",
             match rest with n2 :: _ => n2 | [] => EmptyString end))).
Proof.
  intros Hty name ttl providerData.
  assert (Hconv : convertToLibdnsRecord zone w =
    match strings.Fields (Target w) with
    | [p0; p1; p2; p3] =>
        match strconv.Atoi p0, strconv.Atoi p1, strconv.Atoi p2 with
        | inl priority, inl weight, inl port =>
            let '(service, transport, name') := splitServiceName name in
            Some (SRV service transport name' ttl (uint16 priority) (uint16 weight)
                    (uint16 port) p3 providerData)
        | _, _, _ => Some (Generic (rawRecord zone w))
        end
    | _ => Some (Generic (rawRecord zone w))
    end).
  { unfold convertToLibdnsRecord. rewrite Hty. reflexivity. }
  rewrite Hconv. clear Hconv.
  destruct (splitServiceName_spec name) as (Hno & Hone & Hsplit).
  split; [|split].
  - split.
    + intros Hs. repeat case_match; try done. by eexists _, _, _, _, _, _, _.
    + intros (p0 & p1 & p2 & p3 & a & b & c & -> & -> & -> & ->).
      by destruct (splitServiceName name) as [[??]?].
  - repeat case_match; done.
  - intros p0 p1 p2 p3 a b c -> -> -> ->.
    destruct (splitServiceName name) as [[service transport] name'] eqn:Hsp.
    exists service, transport, name'. split; [done|]. split; [|split].
    + intros Hp. by rewrite <- Hno.
    + intros Hp Hs. by rewrite <- Hone.
    + intros n0 n1 rest Hp Hs. split; [|by rewrite <- (Hsplit n0 n1 rest)].
      destruct (SplitN_3_shape name) as [Hs'|(m0 & m1 & r & Hs' & Hr)]; congruence.
Qed.

(** C9: an MX target whose first field is an integer outside [0, 65535]
    still decodes to a MailExchange record, with the preference reduced
    modulo 2^16 ("-1 host" gives 65535 and "70000 host" gives 4464); the
    SRV priority, weight and port are reduced modulo 2^16 and the CAA flags
    modulo 2^8 in the same way. *)
Theorem C9_narrowing_conversions zone :
  (forall id name ttlSec,
     convertToLibdnsRecord zone (mkDomainRecord id "MX" name "-1 host" ttlSec)
     = Some (MX (RelativeName name zone) (time.seconds ttlSec) 65535 "host"
               (anyMap {[ "id" := anyString (strconv.Itoa id) ]})) /\
     convertToLibdnsRecord zone (mkDomainRecord id "MX" name "70000 host" ttlSec)
     = Some (MX (RelativeName name zone) (time.seconds ttlSec) 4464 "host"
               (anyMap {[ "id" := anyString (strconv.Itoa id) ]}))) /\
  (forall w p0 p1 preference,
     ToUpper (Type_ w) = "MX" ->
     strings.SplitN (Target w) " " 2 = [p0; p1] -> strconv.Atoi p0 = inl preference ->
     exists name ttl providerData,
       convertToLibdnsRecord zone w
       = Some (MX name ttl (preference mod 2 ^ 16) p1 providerData)) /\
  (forall w p0 p1 p2 p3 priority weight port,
     ToUpper (Type_ w) = "SRV" ->
     strings.Fields (Target w) = [p0; p1; p2; p3] -> strconv.Atoi p0 = inl priority ->
     strconv.Atoi p1 = inl weight -> strconv.Atoi p2 = inl port ->
     exists service transport name ttl providerData,
       convertToLibdnsRecord zone w
       = Some (SRV service transport name ttl (priority mod 2 ^ 16)
                 (weight mod 2 ^ 16) (port mod 2 ^ 16) p3 providerData)) /\
  (forall w p0 p1 p2 flags,
     ToUpper (Type_ w) = "CAA" ->
     strings.SplitN (Target w) " " 3 = [p0; p1; p2] -> strconv.Atoi p0 = inl flags ->
     exists name ttl providerData,
       convertToLibdnsRecord zone w
       = Some (CAA name ttl (flags mod 2 ^ 8) p1 p2 providerData)).
Proof.
  repeat split.
  - intros w p0 p1 n Hty Hs Ha.
    unfold convertToLibdnsRecord. rewrite Hty, Hs, Ha. simpl. eauto.
  - intros w p0 p1 p2 p3 a b c Hty Hs Ha Hb Hc.
    unfold convertToLibdnsRecord. rewrite Hty, Hs, Ha, Hb, Hc. simpl.
    destruct (splitServiceName _) as [[??]?]. eauto 6.
  - intros w p0 p1 p2 n Hty Hs Ha.
    unfold convertToLibdnsRecord. rewrite Hty, Hs, Ha. simpl. eauto.
Qed.

(** The decoding table decides between a typed record and the fallback. *)
Lemma convert_decodable zone w :
  if decodable (ToUpper (Type_ w)) (Target w)
  then exists r, convertToLibdnsRecord zone w = Some r /\ providerDataField r <> None
  else convertToLibdnsRecord zone w = Some (Generic (rawRecord zone w)).
Proof.
  unfold decodable, convertToLibdnsRecord, parses, rawRecord.
  destruct (splitServiceName _) as [[??]?].
  remember (ToUpper (Type_ w)) as u eqn:Hu. clear Hu.
  repeat match goal with
         | |- context [String.eqb u ?l] =>
             destruct (String.eqb_spec u l) as [->|?]; cbn [String.eqb Ascii.eqb Bool.eqb orb]
         end;
    repeat case_match; simplify_eq; simpl in *; try done; eauto.
Qed.

(** *** Round trip *)

Lemma Cut_digits d : strconv.allDigits d = true -> strings.Cut d " " = None.
Proof.
  induction d as [|c d IH]; [done|]. simpl. intros [Hc Hd]%andb_true_iff.
  rewrite (IH Hd).
  destruct (Ascii.eqb_spec c " ") as [->|]; [|done].
  by vm_compute in Hc.
Qed.

Lemma SplitN_2_join d target :
  strconv.allDigits d = true ->
  strings.SplitN (d +:+ " " +:+ target) " " 2 = [d; target].
Proof.
  intros Hd. unfold strings.SplitN. simpl.
  rewrite append_cons, append_nil, Cut_app by by apply Cut_digits. done.
Qed.

Lemma SplitN_3_join d tag value :
  strconv.allDigits d = true -> strings.Cut tag " " = None ->
  strings.SplitN (d +:+ " " +:+ tag +:+ " " +:+ value) " " 3 = [d; tag; value].
Proof.
  intros Hd Htag. unfold strings.SplitN. simpl.
  rewrite !append_cons, !append_nil, Cut_app by by apply Cut_digits.
  by rewrite Cut_app.
Qed.

Lemma Fields_join p w port target :
  0 <= p -> 0 <= w -> 0 <= port -> strings.Fields target = [target] ->
  strings.Fields (strconv.FormatUint p +:+ " " +:+ strconv.FormatUint w +:+ " "
                    +:+ strconv.FormatUint port +:+ " " +:+ target)
  = [strconv.FormatUint p; strconv.FormatUint w; strconv.FormatUint port; target].
Proof.
  intros Hp Hw Hport Ht.
  rewrite !Fields_digits, Ht;
    auto using FormatUint_allDigits, FormatUint_nonempty.
Qed.

(** C1 (amended): for a record of a supported kind whose name is already
    relative to the zone, whose data is in the format of its kind, and
    whose TTL is a whole number of seconds, decoding the wire record that
    echoes its encoding (the fields of [RR()], the name rendered relative
    to the zone, the TTL in whole seconds) gives the record back, with the
    provider data set to the wire ID; an SRV record comes back with the
    service, transport and name that decoding splits off its name. *)
Theorem C1_round_trip zone r recordID :
  canonicalName zone r -> canonicalData r -> wholeSeconds (ttlOf r) ->
  convertToLibdnsRecord zone (wireRecordFor recordID (recordOptions zone (RRof r)))
  = Some (withProviderData (anyMap {[ "id" := anyString (strconv.Itoa recordID) ]})
            (splitService r)).
Proof.
  unfold canonicalName, wholeSeconds, nameOf, ttlOf.
  intros Hname Hdata [Hrange Hwhole].
  unfold convertToLibdnsRecord, wireRecordFor, recordOptions.
  cbn [ID Type_ Name Target TTLSec optType optName optTarget optTTLSec].
  rewrite seconds_of_whole_seconds by done. rewrite !Hname.
  destruct r as [name ttl ip pd|name ttl text pd|name ttl target pd
                |name ttl preference target pd
                |service transport name ttl priority weight port target pd
                |name ttl target pd|name ttl flags tag value pd|rr|rr];
    cbn [RRof rrName rrTTL rrType rrData canonicalData withProviderData splitService]
      in *; try done.
  - destruct (Is6 ip); change (ToUpper ?s) with s; cbn [String.eqb Ascii.eqb Bool.eqb orb];
      by rewrite Hdata.
  - rewrite SplitN_2_join by (apply FormatUint_allDigits; lia).
    rewrite Atoi_FormatUint, uint16_small by lia. done.
  - destruct Hdata as (Hp & Hw & Hport & Ht).
    change (ToUpper "SRV") with "SRV". cbn [String.eqb Ascii.eqb Bool.eqb orb].
    rewrite Fields_join by (done || lia).
    rewrite !Atoi_FormatUint, !uint16_small by lia.
    by destruct (splitServiceName name) as [[??]?].
  - destruct Hdata as [Hf Htag].
    rewrite SplitN_3_join by (done || apply FormatUint_allDigits; lia).
    rewrite Atoi_FormatUint, uint8_small by lia. done.
Qed.

End Translator.

Section ClientProperties.

Context `{Imports} `{LinodeClient}.

Ltac run :=
  cbv beta iota zeta delta
    [mbind M_bind mret M_ret lift remote
     ListDomainRecords CreateDomainRecord UpdateDomainRecord DeleteDomainRecord];
  simpl.

(** Handing a result on unchanged, as the Go code does after each call. *)
Lemma rethrow_id {A} (m : M (result error A)) w :
  (r ← m; match r with
          | fail err => mret (fail err)
          | ok a => mret (ok a)
          end) w = m w.
Proof. run. by destruct (m w) as [[[a|e]|msg] w']. Qed.

Lemma list_fold_map zone wires (acc : list libdnsRecord) :
  fold_left
    (fun records linodeRecord =>
       let record := convertToLibdnsRecord zone linodeRecord in
       match record with
       | Some _ => records ++ [record]
       | None => records
       end) wires acc
  = acc ++ map (convertToLibdnsRecord zone) wires.
Proof.
  revert acc. induction wires as [|wire wires IH]; intros acc; simpl.
  - by rewrite app_nil_r.
  - destruct (convert_not_nil zone wire) as [r Hr].
    rewrite IH, Hr. by rewrite <- app_assoc.
Qed.

(** C8: when the remote listing succeeds, the result holds one record per
    wire record, in the same order: the record decoded from it, which is
    never nil, and is the Generic fallback with the raw type and data
    when the type is not recognised or the data is malformed. *)
Theorem C8_list_one_record_per_wire zone domainID w wires st' :
  apiListDomainRecords domainID (store w) = (ok wires, st') ->
  exists records,
    listDomainRecords zone domainID w
    = (Ret (ok records), mkWorld st' (calls w ++ [CallList domainID])) /\
    records = map (convertToLibdnsRecord zone) wires /\
    length records = length wires /\
    forall (i : nat) wire, wires !! i = Some wire ->
      exists r, records !! i = Some (Some r) /\
        convertToLibdnsRecord zone wire = Some r /\
        (decodable (ToUpper (Type_ wire)) (Target wire) = false ->
         r = Generic (rawRecord zone wire)).
Proof.
  intros Hlist. eexists. split; [|split; [reflexivity|split]].
  - unfold listDomainRecords. run. rewrite Hlist. simpl.
    by rewrite list_fold_map.
  - by rewrite length_map.
  - intros i wire Hi.
    destruct (convert_not_nil zone wire) as [r Hr]. exists r.
    change (map ?f ?l) with (f <$> l). rewrite list_lookup_fmap, Hi. simpl. rewrite Hr. repeat split.
    intros Hd. pose proof (convert_decodable zone wire) as Hc.
    rewrite Hd in Hc. congruence.
Qed.

#[local] Arguments mergeWithExistingLibdnsRecord : simpl never.
#[local] Arguments convertToLibdnsRecord : simpl never.
#[local] Arguments recordOptions : simpl never.

(** What [createDomainRecord] does on a record that is not nil. *)
Lemma createDomainRecord_run zone domainID r w :
  createDomainRecord zone domainID (Some r) w
  = let opts := recordOptions zone (RRof r) in
    let '(res, st) := apiCreateDomainRecord domainID opts (store w) in
    (Ret match res with
         | ok added => ok (convertToLibdnsRecord zone added)
         | fail err => fail (apiError err)
         end,
     mkWorld st (calls w ++ [CallCreate domainID opts])).
Proof.
  unfold createDomainRecord. run.
  destruct (apiCreateDomainRecord _ _ _) as [[added|err] st]; [|done].
  destruct (convert_not_nil zone added) as [r' Hr].
  by rewrite (merge_returns_new _ _ _ _ Hr), Hr.
Qed.

(** What [updateDomainRecord] does on a record that is not nil. *)
Lemma updateDomainRecord_run zone domainID r idStr w :
  updateDomainRecord zone domainID (Some r) idStr w
  = match strconv.Atoi idStr with
    | inr err => (Ret (fail (numError err)), w)
    | inl recordID =>
        let opts := recordOptions zone (RRof r) in
        let '(res, st) := apiUpdateDomainRecord domainID recordID opts (store w) in
        (Ret match res with
             | ok updated => ok (convertToLibdnsRecord zone updated)
             | fail err => fail (apiError err)
             end,
         mkWorld st (calls w ++ [CallUpdate domainID recordID opts]))
    end.
Proof.
  unfold updateDomainRecord. run.
  destruct (strconv.Atoi idStr) as [recordID|err]; [|done]. run.
  destruct (apiUpdateDomainRecord _ _ _ _) as [[updated|err] st]; [|done].
  destruct (convert_not_nil zone updated) as [r' Hr].
  by rewrite (merge_returns_new _ _ _ _ Hr), Hr.
Qed.

Lemma getProviderData_not_nil record providerData :
  getProviderData record = Some providerData -> exists r, record = Some r.
Proof. destruct record; [eauto | done]. Qed.

(** C2 (amended): the upsert of a record whose provider data holds an "id"
    issues no Create call; when the value of the "id" is a string, it is
    the update with that id: one Update call for the parsed id when the
    string is an integer, and the parse error with no remote call when it
    is not.  The upsert of a record with no provider data, or none with an
    "id", is the create and issues no Update call: one Create call when
    the record is not nil. *)
Theorem C2_upsert_dispatch zone domainID record w :
  (forall providerData id,
     getProviderData record = Some providerData -> providerData !! "id" = Some id ->
     exists new,
       calls (snd (createOrUpdateDomainRecord zone domainID record w)) = calls w ++ new /\
       Forall (fun c => isCreate c = false) new /\
       forall idStr, id = anyString idStr ->
         createOrUpdateDomainRecord zone domainID record w
         = updateDomainRecord zone domainID record idStr w /\
         (forall recordID, strconv.Atoi idStr = inl recordID ->
            exists rr, callRR record = Ret rr /\
              new = [CallUpdate domainID recordID (recordOptions zone rr)]) /\
         (forall err, strconv.Atoi idStr = inr err ->
            createOrUpdateDomainRecord zone domainID record w
            = (Ret (fail (numError err)), w) /\
            new = [])) /\
  ((getProviderData record = None \/
    exists providerData,
      getProviderData record = Some providerData /\ providerData !! "id" = None) ->
   createOrUpdateDomainRecord zone domainID record w
   = createDomainRecord zone domainID record w /\
   exists new,
     calls (snd (createOrUpdateDomainRecord zone domainID record w)) = calls w ++ new /\
     Forall (fun c => isUpdate c = false) new /\
     forall rr, callRR record = Ret rr ->
       new = [CallCreate domainID (recordOptions zone rr)]).
Proof.
  split.
  - intros providerData id Hpd Hid.
    destruct (getProviderData_not_nil _ _ Hpd) as [r ->].
    destruct id as [|idStr|n|b|m].
    2: { assert (Hstr : createOrUpdateDomainRecord zone domainID (Some r) w
                        = updateDomainRecord zone domainID (Some r) idStr w).
         { unfold createOrUpdateDomainRecord. rewrite Hpd, Hid.
           apply (rethrow_id (updateDomainRecord zone domainID (Some r) idStr)). }
         rewrite Hstr, updateDomainRecord_run.
         destruct (strconv.Atoi idStr) as [recordID|err] eqn:Hatoi.
         - cbv zeta. destruct (apiUpdateDomainRecord _ _ _ _) as [res st] eqn:Hapi.
           eexists. split; [reflexivity|]. split; [by repeat constructor|].
           intros ? [= <-]. split; [|split].
           + rewrite updateDomainRecord_run, Hatoi. cbv zeta. by rewrite Hapi.
           + intros recordID' Hid'. exists (RRof r). split; [done|]. congruence.
           + intros err Herr. congruence.
         - exists []. split; [by rewrite app_nil_r|]. split; [constructor|].
           intros ? [= <-]. split; [|split].
           + by rewrite updateDomainRecord_run, Hatoi.
           + congruence.
           + intros err' Herr'. split; [|done]. congruence. }
    all: exists []; unfold createOrUpdateDomainRecord; rewrite Hpd, Hid;
      (split; [by rewrite app_nil_r|]); (split; [constructor|]); intros ? [=].
  - intros Hno.
    assert (Hc : createOrUpdateDomainRecord zone domainID record w
                 = createDomainRecord zone domainID record w).
    { unfold createOrUpdateDomainRecord.
      destruct Hno as [->|(providerData & -> & ->)];
        apply (rethrow_id (createDomainRecord zone domainID record)). }
    split; [done|]. rewrite Hc.
    destruct record as [r|].
    + rewrite createDomainRecord_run. cbv zeta.
      destruct (apiCreateDomainRecord _ _ _) as [res st].
      eexists. split; [reflexivity|]. split; [by repeat constructor|].
      by intros rr [= <-].
    + exists []. split; [by rewrite app_nil_r|]. split; [constructor|].
      intros rr [=].
Qed.

(** The upsert of a decoded record that carries provider data updates the
    wire record it was decoded from. *)
Lemma upsert_decoded_updates zone domainID wire w providerData :
  getProviderData (convertToLibdnsRecord zone wire) = Some providerData ->
  - 2 ^ 63 <= ID wire < 2 ^ 63 ->
  exists r,
    convertToLibdnsRecord zone wire = Some r /\
    calls (snd (createOrUpdateDomainRecord zone domainID
                  (convertToLibdnsRecord zone wire) w))
    = calls w ++ [CallUpdate domainID (ID wire) (recordOptions zone (RRof r))].
Proof.
  intros Hpd Hid. destruct (convert_not_nil zone wire) as [r Hr].
  exists r. split; [done|]. rewrite Hr in *.
  pose proof (convert_provider_data _ _ _ Hr) as Hprov.
  assert (Hlookup : providerData !! "id" = Some (anyString (strconv.Itoa (ID wire)))).
  { destruct r; simpl in *; try done;
      injection Hprov as ->; injection Hpd as <-; apply lookup_singleton_eq. }
  unfold createOrUpdateDomainRecord. rewrite Hpd, Hlookup.
  change (lift (assertString (anyString ?s)) ≫= ?f) with (f s). cbv beta.
  rewrite rethrow_id, updateDomainRecord_run, Atoi_Itoa by done. cbv zeta.
  by destruct (apiUpdateDomainRecord _ _ _ _).
Qed.

(** C3: deleting a record with no provider data, or none with an "id",
    fails with a local error and leaves the store and the call log
    untouched; so does deleting a record whose "id" string is not an
    integer, with the parse error; otherwise the remote delete is issued
    for the parsed id and its result is returned. *)
Theorem C3_delete_requires_identifier domainID record w :
  (getProviderData record = None ->
   deleteDomainRecord domainID record w
   = (Ret (Some (errorf "record does not have provider data with ID")), w)) /\
  (forall providerData,
     getProviderData record = Some providerData -> providerData !! "id" = None ->
     deleteDomainRecord domainID record w
     = (Ret (Some (errorf "record does not have ID in provider data")), w)) /\
  (forall providerData idStr err,
     getProviderData record = Some providerData ->
     providerData !! "id" = Some (anyString idStr) -> strconv.Atoi idStr = inr err ->
     deleteDomainRecord domainID record w = (Ret (Some (numError err)), w)) /\
  (forall providerData idStr recordID,
     getProviderData record = Some providerData ->
     providerData !! "id" = Some (anyString idStr) ->
     strconv.Atoi idStr = inl recordID ->
     deleteDomainRecord domainID record w
     = (Ret (apiError <$> fst (apiDeleteDomainRecord domainID recordID (store w))),
        mkWorld (snd (apiDeleteDomainRecord domainID recordID (store w)))
          (calls w ++ [CallDelete domainID recordID]))).
Proof.
  unfold deleteDomainRecord. repeat split.
  - by intros ->.
  - by intros providerData -> ->.
  - intros providerData idStr err -> ->. run. by intros ->.
  - intros providerData idStr recordID -> ->. run. intros ->. run.
    by destruct (apiDeleteDomainRecord _ _ _).
Qed.

Lemma decoded_id_is_string zone wire providerData :
  getProviderData (convertToLibdnsRecord zone wire) = Some providerData ->
  providerData !! "id" = Some (anyString (strconv.Itoa (ID wire))).
Proof.
  destruct (convert_not_nil zone wire) as [r Hr]. rewrite Hr.
  apply convert_provider_data in Hr.
  destruct r; simpl in *; try done;
    injection Hr as ->; intros [= <-]; apply lookup_singleton_eq.
Qed.

(** C10: the "id" that decoding attaches is a string, so the upsert and
    the delete of a decoded record do not panic on their type assertion;
    on a record whose provider data maps "id" to a value that is not a
    string, both panic, and no remote call is issued. *)
Theorem C10_unchecked_id_assertion zone domainID w :
  (forall wire,
     (forall providerData,
        getProviderData (convertToLibdnsRecord zone wire) = Some providerData ->
        exists idStr, providerData !! "id" = Some (anyString idStr)) /\
     isPanic (fst (createOrUpdateDomainRecord zone domainID
                     (convertToLibdnsRecord zone wire) w)) = false /\
     isPanic (fst (deleteDomainRecord domainID (convertToLibdnsRecord zone wire) w))
     = false) /\
  (forall name ttl text,
     let record := Some (TXT name ttl text (anyMap {[ "id" := anyInt 42 ]})) in
     (exists msg, createOrUpdateDomainRecord zone domainID record w = (Panic msg, w)) /\
     (exists msg, deleteDomainRecord domainID record w = (Panic msg, w))) /\
  (forall record providerData id,
     getProviderData record = Some providerData -> providerData !! "id" = Some id ->
     (forall idStr, id <> anyString idStr) ->
     (exists msg, createOrUpdateDomainRecord zone domainID record w = (Panic msg, w)) /\
     (exists msg, deleteDomainRecord domainID record w = (Panic msg, w))).
Proof.
  split.
  - intros wire. split; [|split].
    + intros providerData Hpd. eauto using decoded_id_is_string.
    + unfold createOrUpdateDomainRecord.
      destruct (convert_not_nil zone wire) as [r Hr].
      destruct (getProviderData _) as [providerData|] eqn:Hpd.
      * rewrite (decoded_id_is_string _ _ _ Hpd).
        change (lift (assertString (anyString ?s)) ≫= ?f) with (f s). cbv beta.
        rewrite rethrow_id, Hr, updateDomainRecord_run.
        destruct (strconv.Atoi _); [|done]. cbv zeta.
        by destruct (apiUpdateDomainRecord _ _ _ _).
      * rewrite rethrow_id, Hr, createDomainRecord_run. cbv zeta.
        by destruct (apiCreateDomainRecord _ _ _).
    + unfold deleteDomainRecord.
      destruct (getProviderData _) as [providerData|] eqn:Hpd; [|done].
      rewrite (decoded_id_is_string _ _ _ Hpd). run.
      destruct (strconv.Atoi _); [|done]. run.
      by destruct (apiDeleteDomainRecord _ _ _).
  - split.
    + intros name ttl text record. split; eexists; reflexivity.
    + intros record providerData id Hpd Hid Hns.
      unfold createOrUpdateDomainRecord, deleteDomainRecord. rewrite Hpd, Hid.
      destruct id as [|idStr| | |]; try (split; eexists; reflexivity).
      by destruct (Hns idStr).
Qed.

End ClientProperties.


(** ** Further properties of decoding *)

Section Padding.

Import strings.

Lemma allSpace_width c s :
  byte_in c 9 13 || byte_is c 32 = true -> spaceWidth (String c s) = 1%nat.
Proof. intros Hc. unfold spaceWidth. by rewrite Hc. Qed.

(** Only white space is left: the field being read is the last one. *)
Lemma fieldsFrom_allSpace ws skip cur :
  allSpace ws = true -> fieldsFrom ws skip cur = flushField cur.
Proof.
  revert skip cur. induction ws as [|c ws IH]; intros skip cur Hws; [done|].
  simpl in Hws. apply andb_true_iff in Hws as [Hc Hws].
  cbn [fieldsFrom]. destruct skip as [|k]; [|by apply IH].
  rewrite (allSpace_width c ws Hc), IH by done. simpl. apply app_nil_r.
Qed.

Lemma spaceByte_ascii c :
  byte_in c 9 13 || byte_is c 32 = true ->
  byte_is c 133 = false /\ byte_is c 160 = false /\ byte_is c 154 = false /\
  byte_is c 128 = false /\ byte_is c 129 = false /\ byte_is c 159 = false /\
  byte_is c 175 = false /\ byte_in c 128 138 = false /\ byte_in c 168 169 = false.
Proof. unfold byte_in, byte_is. lia. Qed.

(** White space after a string does not change whether, and how wide, a
    white space character starts it. *)
Lemma spaceWidth_app c s ws :
  allSpace ws = true -> spaceWidth (String c (s +:+ ws)) = spaceWidth (String c s).
Proof.
  intros Hws. destruct s as [|c1 [|c2 s3]]; rewrite ?append_cons, ?append_nil; [| |done].
  - destruct ws as [|x ws]; [done|].
    simpl in Hws. apply andb_true_iff in Hws as [Hx Hws].
    destruct (spaceByte_ascii x Hx) as (H1 & H2 & H3 & H4 & H5 & _).
    unfold spaceWidth. rewrite H1, H2, H3, H4, H5.
    destruct (byte_in c 9 13 || byte_is c 32); [done|].
    destruct (byte_is c 194); [done|].
    destruct ws; [done|]. by rewrite !andb_false_r.
  - destruct ws as [|x ws]; [done|].
    simpl in Hws. apply andb_true_iff in Hws as [Hx Hws].
    destruct (spaceByte_ascii x Hx) as (_ & _ & _ & H4 & _ & H6 & H7 & H8 & H9).
    unfold spaceWidth. rewrite H4, H6, H7, H8, H9.
    destruct (byte_in c 9 13 || byte_is c 32); [done|].
    destruct (byte_is c 194); [done|]. by rewrite !andb_false_r.
Qed.

Lemma fieldsFrom_app_allSpace s ws skip cur :
  allSpace ws = true -> fieldsFrom (s +:+ ws) skip cur = fieldsFrom s skip cur.
Proof.
  intros Hws. revert skip cur. induction s as [|c s IH]; intros skip cur.
  - rewrite append_nil. by apply fieldsFrom_allSpace.
  - rewrite append_cons. cbn [fieldsFrom]. destruct skip as [|k]; [|apply IH].
    rewrite spaceWidth_app by done.
    destruct (spaceWidth (String c s)); by rewrite IH.
Qed.

Lemma Fields_allSpace_app ws s : allSpace ws = true -> Fields (ws +:+ s) = Fields s.
Proof.
  unfold Fields. induction ws as [|c ws IH]; intros Hws; [done|].
  simpl in Hws. apply andb_true_iff in Hws as [Hc Hws].
  rewrite append_cons. cbn [fieldsFrom].
  rewrite (allSpace_width c _ Hc). simpl. by apply IH.
Qed.

(** [strings.Fields] ignores ASCII white space around its input. *)
Lemma Fields_padding pre post s :
  allSpace pre = true -> allSpace post = true ->
  Fields (pre +:+ s +:+ post) = Fields s.
Proof.
  intros Hpre Hpost. rewrite Fields_allSpace_app by done.
  unfold Fields. by apply fieldsFrom_app_allSpace.
Qed.

End Padding.

Section Decoding.

Context `{Imports}.

#[local] Abbreviation idOf w := (anyMap {[ "id" := anyString (strconv.Itoa (ID w)) ]}).

(** A wire record of type A or AAAA (in any letter case) decodes to an
    Address record whenever its target parses as an IP address, of either
    family under either type, and to the Generic fallback otherwise. *)
Theorem decode_address zone w :
  ToUpper (Type_ w) = "A" \/ ToUpper (Type_ w) = "AAAA" ->
  (forall ip, ParseAddr (Target w) = Some ip ->
     convertToLibdnsRecord zone w
     = Some (Address (RelativeName (Name w) zone) (time.seconds (TTLSec w)) ip (idOf w)) /\
     convertToLibdnsRecord zone (withType "A" w)
     = convertToLibdnsRecord zone (withType "AAAA" w)) /\
  (ParseAddr (Target w) = None ->
     convertToLibdnsRecord zone w = Some (Generic (rawRecord zone w))).
Proof.
  intros Hty. split.
  - intros ip Hip. split.
    + unfold convertToLibdnsRecord. destruct Hty as [-> | ->]; simpl; by rewrite Hip.
    + unfold convertToLibdnsRecord, withType. simpl.
      change (ToUpper "A") with "A". change (ToUpper "AAAA") with "AAAA".
      simpl. by rewrite Hip.
  - intros Hip. unfold convertToLibdnsRecord, rawRecord.
    destruct Hty as [-> | ->]; simpl; by rewrite Hip.
Qed.

(** [SplitN s " " 3] splits on the first two spaces. *)
Lemma SplitN_3 s :
  match strings.Cut s " " with
  | Some (p0, rest) =>
      match strings.Cut rest " " with
      | Some (p1, p2) =>
          strings.SplitN s " " 3 = [p0; p1; p2] /\
          s = p0 +:+ " " +:+ p1 +:+ " " +:+ p2 /\
          strings.Cut p0 " " = None /\ strings.Cut p1 " " = None
      | None => strings.SplitN s " " 3 = [p0; rest]
      end
  | None => strings.SplitN s " " 3 = [s]
  end.
Proof.
  unfold strings.SplitN. simpl.
  destruct (strings.Cut s " ") as [[p0 rest]|] eqn:Hc; [|done].
  apply Cut_Some in Hc as [-> Hn0].
  destruct (strings.Cut rest " ") as [[p1 p2]|] eqn:Hc'; [|done].
  apply Cut_Some in Hc' as [-> Hn1]. done.
Qed.

(** A wire record of type CAA (in any letter case) has its target split on
    its first two spaces: with three parts and an integer first part the
    result is a CertAuthzAuth record with the flags converted to [uint8],
    the second part as tag and the rest, further spaces included, as value;
    with fewer than two spaces, or a first part that is not an integer, it
    is the Generic fallback. *)
Theorem decode_caa zone w :
  ToUpper (Type_ w) = "CAA" ->
  let name := RelativeName (Name w) zone in
  let ttl := time.seconds (TTLSec w) in
  match strings.Cut (Target w) " " with
  | Some (p0, rest) =>
      match strings.Cut rest " " with
      | Some (p1, p2) =>
          Target w = p0 +:+ " " +:+ p1 +:+ " " +:+ p2 /\
          strings.Cut p0 " " = None /\ strings.Cut p1 " " = None /\
          match strconv.Atoi p0 with
          | inl flags =>
              convertToLibdnsRecord zone w
              = Some (CAA name ttl (uint8 flags) p1 p2 (idOf w)) /\
              (0 <= flags < 2 ^ 8 -> uint8 flags = flags)
          | inr _ => convertToLibdnsRecord zone w = Some (Generic (rawRecord zone w))
          end
      | None => convertToLibdnsRecord zone w = Some (Generic (rawRecord zone w))
      end
  | None => convertToLibdnsRecord zone w = Some (Generic (rawRecord zone w))
  end.
Proof.
  intros Hty name ttl.
  unfold convertToLibdnsRecord. rewrite Hty. cbn [String.eqb Ascii.eqb Bool.eqb orb].
  pose proof (SplitN_3 (Target w)) as Hs.
  destruct (strings.Cut (Target w) " ") as [[p0 rest]|]; [|by rewrite Hs].
  destruct (strings.Cut rest " ") as [[p1 p2]|]; [|by rewrite Hs].
  destruct Hs as (-> & Ht & Hn0 & Hn1). repeat split; try done.
  destruct (strconv.Atoi p0); [|done]. split; [done | apply uint8_small].
Qed.

Lemma Cut_underscore_label label :
  strings.Cut label "." = None -> strings.Cut (String "_" label) "." = None.
Proof. intros Hl. cbn [strings.Cut]. simpl. by rewrite Hl. Qed.

Lemma SplitN_3_labels a b :
  strings.Cut a "." = None -> strings.Cut b "." = None ->
  (forall rest, strings.SplitN (a +:+ "." +:+ b +:+ "." +:+ rest) "." 3 = [a; b; rest]) /\
  strings.SplitN (a +:+ "." +:+ b) "." 3 = [a; b].
Proof.
  intros Ha Hb. unfold strings.SplitN. simpl. split.
  - intros rest. rewrite !append_cons, !append_nil, Cut_app by done.
    by rewrite Cut_app.
  - rewrite !append_cons, !append_nil, Cut_app by done. by rewrite Hb.
Qed.

(** The split of a name in the documented shape gives its components back. *)
Lemma splitServiceName_join service transport :
  strings.Cut service "." = None -> strings.Cut transport "." = None ->
  (forall name,
     splitServiceName ("_" +:+ service +:+ "._" +:+ transport +:+ "." +:+ name)
     = (service, transport, name)) /\
  splitServiceName ("_" +:+ service +:+ "._" +:+ transport)
  = (service, transport, EmptyString).
Proof.
  intros Hs Ht. apply Cut_underscore_label in Hs, Ht.
  destruct (SplitN_3_labels _ _ Hs Ht) as [Hsplit Hsplit0]. split.
  - intros name.
    change ("_" +:+ service +:+ "._" +:+ transport +:+ "." +:+ name)
      with (String "_" service +:+ "." +:+ String "_" transport +:+ "." +:+ name).
    unfold splitServiceName. by rewrite Hsplit.
  - change ("_" +:+ service +:+ "._" +:+ transport)
      with (String "_" service +:+ "." +:+ String "_" transport).
    unfold splitServiceName. by rewrite Hsplit0.
Qed.

(** A well-formed SRV wire record whose zone-relative name is
    "_service._transport.name", or "_service._transport", for a service and
    a transport without dots, decodes to a Service record with that service,
    transport and name (the empty name in the second case); the name may
    hold further dots. *)
Theorem decode_srv_documented_name zone w service transport p0 p1 p2 p3 priority weight port :
  ToUpper (Type_ w) = "SRV" ->
  strings.Fields (Target w) = [p0; p1; p2; p3] -> strconv.Atoi p0 = inl priority ->
  strconv.Atoi p1 = inl weight -> strconv.Atoi p2 = inl port ->
  strings.Cut service "." = None -> strings.Cut transport "." = None ->
  (forall name,
     RelativeName (Name w) zone
     = "_" +:+ service +:+ "._" +:+ transport +:+ "." +:+ name ->
     convertToLibdnsRecord zone w
     = Some (SRV service transport name (time.seconds (TTLSec w)) (uint16 priority)
               (uint16 weight) (uint16 port) p3 (idOf w))) /\
  (RelativeName (Name w) zone = "_" +:+ service +:+ "._" +:+ transport ->
   convertToLibdnsRecord zone w
   = Some (SRV service transport EmptyString (time.seconds (TTLSec w)) (uint16 priority)
             (uint16 weight) (uint16 port) p3 (idOf w))).
Proof.
  intros Hty Hf Ha Hb Hc Hs Ht.
  destruct (splitServiceName_join service transport Hs Ht) as [Hjoin Hjoin0].
  split; [intros name Hname|intros Hname];
    unfold convertToLibdnsRecord; rewrite Hty, Hf, Ha, Hb, Hc, Hname;
    cbn [String.eqb Ascii.eqb Bool.eqb orb]; by rewrite ?Hjoin, ?Hjoin0.
Qed.

(** The letter case of an ASCII wire type does not matter to decoding: two
    wire records that differ only in it decode to the same typed record, or
    both to the Generic fallback, each with its type as it is written. *)
Theorem decode_type_case zone w ty :
  strings.isASCII (Type_ w) = true -> strings.isASCII ty = true ->
  strings.upperASCII ty = strings.upperASCII (Type_ w) ->
  (exists r, convertToLibdnsRecord zone w = Some r /\ isGeneric r = false /\
             convertToLibdnsRecord zone (withType ty w) = Some r) \/
  (convertToLibdnsRecord zone w = Some (Generic (rawRecord zone w)) /\
   convertToLibdnsRecord zone (withType ty w)
   = Some (Generic (rawRecord zone (withType ty w)))).
Proof.
  intros Hw Hty Heq.
  assert (Hup : ToUpper (Type_ (withType ty w)) = ToUpper (Type_ w)).
  { unfold ToUpper, withType. simpl. by rewrite Hw, Hty. }
  unfold convertToLibdnsRecord, rawRecord. rewrite Hup.
  change (Name (withType ty w)) with (Name w).
  change (Target (withType ty w)) with (Target w).
  change (TTLSec (withType ty w)) with (TTLSec w).
  change (ID (withType ty w)) with (ID w).
  destruct (splitServiceName _) as [[??]?].
  repeat case_match; (by right) || (left; eexists; by repeat split).
Qed.

(** ASCII white space around the target of a wire record that decodes to a
    Service record does not change the decoded record. *)
Theorem decode_srv_padding zone w pre post :
  ToUpper (Type_ w) = "SRV" -> allSpace pre = true -> allSpace post = true ->
  isService (convertToLibdnsRecord zone w) = true ->
  convertToLibdnsRecord zone (withTarget (pre +:+ Target w +:+ post) w)
  = convertToLibdnsRecord zone w.
Proof.
  intros Hty Hpre Hpost. unfold convertToLibdnsRecord, withTarget.
  cbn [ID Type_ Name Target TTLSec]. rewrite Hty, Fields_padding by done.
  cbn [String.eqb Ascii.eqb Bool.eqb orb].
  destruct (splitServiceName _) as [[??]?].
  repeat case_match; done.
Qed.

(** The targets of MX and CAA records are split on single spaces: a target
    that starts with a space has an empty first part, which is no integer,
    and the record decodes to the Generic fallback. *)
Theorem decode_leading_space zone w target :
  ToUpper (Type_ w) = "MX" \/ ToUpper (Type_ w) = "CAA" ->
  Target w = String " " target ->
  convertToLibdnsRecord zone w = Some (Generic (rawRecord zone w)).
Proof.
  intros Hty Ht.
  assert (Hsplit : forall k, strings.genSplit (String " " target) " " (S k)
                             = EmptyString :: strings.genSplit target " " k)
    by reflexivity.
  unfold convertToLibdnsRecord, rawRecord.
  change (strings.SplitN ?s ?sep 2) with (strings.genSplit s sep 1).
  change (strings.SplitN ?s ?sep 3) with (strings.genSplit s sep 2).
  rewrite Ht. destruct Hty as [-> | ->]; cbn [String.eqb Ascii.eqb Bool.eqb orb];
    rewrite Hsplit; by repeat case_match.
Qed.

Lemma seconds_exact n :
  - 9223372036 <= n <= 9223372036 ->
  time.seconds n = n * time.Second /\
  time.int_of_float64 (time.Seconds (n * time.Second)) = n.
Proof.
  intros Hn. split.
  - unfold time.seconds, time.wrap64, time.Second. rewrite Z.mod_small; lia.
  - unfold time.Seconds.
    rewrite Z.quot_mul, Z.rem_mul by done.
    change (SFdiv 53 1024 (time.float64_of_int 0) (time.float64_of_int 1000000000))
      with (S754_zero false).
    assert (Hs : - 2 ^ 53 < n < 2 ^ 53) by lia.
    rewrite <- (float64_of_int_exact n Hs) at 2.
    destruct (time.float64_of_int n) as [[]| | |]; done.
Qed.

(** The TTL of a decoded record is the wire TTL in seconds, with the
    wrap-around of [int64]; for a wire TTL of at most 9223372036 seconds in
    magnitude it is exact, of any sign, and encoding it gives the wire TTL
    back. *)
Theorem decoded_ttl zone w r :
  convertToLibdnsRecord zone w = Some r ->
  recordTTL r = time.seconds (TTLSec w) /\
  (- 9223372036 <= TTLSec w <= 9223372036 ->
   recordTTL r = TTLSec w * time.Second /\
   time.int_of_float64 (time.Seconds (recordTTL r)) = TTLSec w).
Proof.
  intros Hr.
  assert (Httl : recordTTL r = time.seconds (TTLSec w)).
  { unfold convertToLibdnsRecord in Hr.
    repeat match type of Hr with
           | context [match ?x with _ => _ end] => destruct x eqn:?
           end; injection Hr as <-; reflexivity. }
  split; [done|]. intros Hn. rewrite Httl.
  destruct (seconds_exact _ Hn) as [-> Hback]. done.
Qed.

End Decoding.

(** ** Further properties of the client *)

Section MoreClientProperties.

Context `{Imports} `{LinodeClient}.

#[local] Arguments mergeWithExistingLibdnsRecord : simpl never.
#[local] Arguments convertToLibdnsRecord : simpl never.
#[local] Arguments recordOptions : simpl never.

Ltac runM :=
  cbv beta iota zeta delta
    [mbind M_bind mret M_ret lift remote
     ListDomainRecords CreateDomainRecord UpdateDomainRecord DeleteDomainRecord];
  simpl.

(** Listing issues exactly one List call and nothing else, whatever its
    outcome, and fails exactly when that call fails, with its error wrapped
    and no records. *)
Theorem list_one_call zone domainID w :
  calls (snd (listDomainRecords zone domainID w)) = calls w ++ [CallList domainID] /\
  store (snd (listDomainRecords zone domainID w))
  = snd (apiListDomainRecords domainID (store w)) /\
  forall e,
    fst (listDomainRecords zone domainID w) = Ret (fail e) <->
    exists err,
      fst (apiListDomainRecords domainID (store w)) = fail err /\
      e = errorfWrap "could not list domain records" err.
Proof.
  unfold listDomainRecords. runM.
  destruct (apiListDomainRecords domainID (store w)) as [[wires|err] st]; simpl.
  - repeat split; try done. by intros (err & [=] & _).
  - repeat split; try done.
    + intros [= <-]. by exists err.
    + by intros (err' & [= <-] & ->).
Qed.

(** A record without a provider data map, which is a record whose
    [ProviderData] is nil or any value other than a map, or a generic or
    foreign record, is taken for a new one: its upsert issues exactly one
    Create call, and its delete fails with a local error and no remote
    call.  The nil record has no provider data either: its delete fails in
    the same way, and its upsert panics before any remote call. *)
Theorem no_map_is_new zone domainID w :
  (forall r,
     (forall data, providerDataField r <> Some (anyMap data)) ->
     getProviderData (Some r) = None /\
     calls (snd (createOrUpdateDomainRecord zone domainID (Some r) w))
     = calls w ++ [CallCreate domainID (recordOptions zone (RRof r))] /\
     deleteDomainRecord domainID (Some r) w
     = (Ret (Some (errorf "record does not have provider data with ID")), w)) /\
  (exists msg, createOrUpdateDomainRecord zone domainID None w = (Panic msg, w)) /\
  deleteDomainRecord domainID None w
  = (Ret (Some (errorf "record does not have provider data with ID")), w).
Proof.
  split; [|split; [eexists|]; reflexivity].
  intros r Hno.
  assert (Hpd : getProviderData (Some r) = None).
  { destruct r as [? ? ? pd|? ? ? pd|? ? ? pd|? ? ? ? pd|? ? ? ? ? ? ? ? pd
                  |? ? ? pd|? ? ? ? ? pd|?|?]; simpl in *; try done;
      destruct pd as [| | | |data]; try done; by destruct (Hno data). }
  split; [done|]. split.
  - unfold createOrUpdateDomainRecord. rewrite Hpd, rethrow_id, createDomainRecord_run.
    cbv zeta. by destruct (apiCreateDomainRecord _ _ _).
  - unfold deleteDomainRecord. by rewrite Hpd.
Qed.

Lemma decoded_provider_data zone wire providerData :
  getProviderData (convertToLibdnsRecord zone wire) = Some providerData ->
  providerData = {[ "id" := anyString (strconv.Itoa (ID wire)) ]}.
Proof.
  destruct (convert_not_nil zone wire) as [r Hr]. rewrite Hr.
  apply convert_provider_data in Hr.
  destruct r; simpl in *; try done; injection Hr as ->; by intros [= <-].
Qed.

(** A decoded record that carries provider data addresses the wire record
    it was decoded from: its upsert issues one Update call for the wire
    identifier, and its delete issues one Delete call for it and returns
    the result of that call. *)
Theorem decoded_addresses_wire zone domainID wire w providerData :
  getProviderData (convertToLibdnsRecord zone wire) = Some providerData ->
  - 2 ^ 63 <= ID wire < 2 ^ 63 ->
  (exists r,
     convertToLibdnsRecord zone wire = Some r /\
     calls (snd (createOrUpdateDomainRecord zone domainID
                   (convertToLibdnsRecord zone wire) w))
     = calls w ++ [CallUpdate domainID (ID wire) (recordOptions zone (RRof r))]) /\
  deleteDomainRecord domainID (convertToLibdnsRecord zone wire) w
  = (Ret (apiError <$> fst (apiDeleteDomainRecord domainID (ID wire) (store w))),
     mkWorld (snd (apiDeleteDomainRecord domainID (ID wire) (store w)))
       (calls w ++ [CallDelete domainID (ID wire)])).
Proof.
  intros Hpd Hid. split; [by eapply upsert_decoded_updates|].
  unfold deleteDomainRecord. rewrite Hpd.
  rewrite (decoded_provider_data _ _ _ Hpd), lookup_singleton_eq. runM.
  rewrite Atoi_Itoa by done. runM.
  by destruct (apiDeleteDomainRecord _ _ _).
Qed.

(** A wire record that decodes to the Generic fallback cannot be addressed
    through its decoded form: the delete of the decoded record fails
    locally with no remote call, and its upsert issues a Create call, not
    an Update. *)
Theorem generic_decoded_is_new zone domainID wire w r :
  convertToLibdnsRecord zone wire = Some r -> isGeneric r = true ->
  r = Generic (rawRecord zone wire) /\
  deleteDomainRecord domainID (Some r) w
  = (Ret (Some (errorf "record does not have provider data with ID")), w) /\
  calls (snd (createOrUpdateDomainRecord zone domainID (Some r) w))
  = calls w ++ [CallCreate domainID (recordOptions zone (rawRecord zone wire))].
Proof.
  intros Hr Hg. apply convert_provider_data in Hr.
  destruct r as [| | | | | | |rr|]; try done. subst rr.
  split; [done|]. split; [done|].
  assert (Hpd : getProviderData (Some (Generic (rawRecord zone wire))) = None)
    by reflexivity.
  unfold createOrUpdateDomainRecord.
  rewrite Hpd, rethrow_id, createDomainRecord_run. cbv zeta.
  by destruct (apiCreateDomainRecord _ _ _).
Qed.

(** Upserting a new record and then upserting the record that came back
    creates once and then updates the record the server created: when the
    server's answer decodes to a record with provider data, the second
    upsert issues an Update call for the identifier the server assigned. *)
Theorem create_then_update zone domainID r w added st providerData :
  getProviderData (Some r) = None ->
  apiCreateDomainRecord domainID (recordOptions zone (RRof r)) (store w) = (ok added, st) ->
  getProviderData (convertToLibdnsRecord zone added) = Some providerData ->
  - 2 ^ 63 <= ID added < 2 ^ 63 ->
  let w1 := mkWorld st (calls w ++ [CallCreate domainID (recordOptions zone (RRof r))]) in
  createOrUpdateDomainRecord zone domainID (Some r) w
  = (Ret (ok (convertToLibdnsRecord zone added)), w1) /\
  exists r',
    convertToLibdnsRecord zone added = Some r' /\
    calls (snd (createOrUpdateDomainRecord zone domainID
                  (convertToLibdnsRecord zone added) w1))
    = calls w ++ [CallCreate domainID (recordOptions zone (RRof r));
                  CallUpdate domainID (ID added) (recordOptions zone (RRof r'))].
Proof.
  intros Hnew Hcreate Hpd Hid w1. split.
  - unfold createOrUpdateDomainRecord.
    rewrite Hnew, rethrow_id, createDomainRecord_run. cbv zeta. by rewrite Hcreate.
  - destruct (upsert_decoded_updates zone domainID added w1 providerData Hpd Hid)
      as (r' & Hr' & Hcalls).
    exists r'. split; [done|]. rewrite Hcalls. unfold w1. simpl.
    by rewrite <- app_assoc.
Qed.

End MoreClientProperties.

(** ** Zone lookup and set-up *)

Section LookupProperties.

Context `{DomainsClient}.

(** The zone lookup issues at most one [ListDomains] call, with the filter
    of the absolute name of the zone, and none when the filter cannot be
    written; it returns an identifier exactly when the listing succeeds
    with at least one domain, and then the identifier of the first one. *)
Theorem zone_lookup zone st :
  let '(r, st', filters) := getDomainIDByZone zone st in
  match marshalDomainFilter (AbsoluteName zone EmptyString) with
  | fail err => r = fail (filterError err) /\ st' = st /\ filters = []
  | ok filter =>
      filters = [filter] /\ st' = snd (apiListDomains filter st) /\
      (forall id,
         r = ok id <->
         exists d rest, fst (apiListDomains filter st) = ok (d :: rest) /\ id = Domain_ID d) /\
      (fst (apiListDomains filter st) = ok [] ->
       r = fail (clientError (errorf "could not find the domain provided"))) /\
      (forall err,
         fst (apiListDomains filter st) = fail err ->
         r = fail (clientError (errorfWrap "could not list domains" err)))
  end.
Proof.
  unfold getDomainIDByZone.
  destruct (marshalDomainFilter _) as [filter|err]; [|done].
  destruct (apiListDomains filter st) as [[[|d rest]|err] st']; simpl.
  - repeat split; try done. by intros (d & rest & [=] & _).
  - repeat split; try done.
    + intros [= <-]. by exists d, rest.
    + by intros (d' & rest' & [= <- <-] & ->).
  - repeat split; try done.
    + by intros (d & rest & [=] & _).
    + by intros err' [= <-].
Qed.

End LookupProperties.

Section SetupProperties.

Context `{ClientSetup}.

(** The client is set up once: whatever the settings are changed to after
    the first [init], a later [init] changes nothing.  The first [init]
    builds the client from the settings alone, applies the token, the base
    URL and the version in this order, and skips the empty ones. *)
Theorem init_once p token url version :
  init (configure token url version (init p)) = configure token url version (init p) /\
  client (init (configure token url version (init p))) = client (init p) /\
  (once p = false ->
   client (init p)
   = (if String.eqb (APIVersion p) EmptyString then id else SetAPIVersion (APIVersion p))
       ((if String.eqb (APIURL p) EmptyString then id else SetBaseURL (APIURL p))
          ((if String.eqb (APIToken p) EmptyString then id else SetToken (APIToken p))
             NewClient))) /\
  (once p = false -> APIToken p = EmptyString -> APIURL p = EmptyString ->
   APIVersion p = EmptyString -> client (init p) = NewClient).
Proof.
  assert (Hdone : once (init p) = true).
  { unfold init. by destruct (once p) eqn:Hp. }
  repeat split.
  - unfold init at 1. simpl. by rewrite Hdone.
  - unfold init at 1. simpl. by rewrite Hdone.
  - intros Hp. unfold init. rewrite Hp. simpl.
    by repeat destruct (String.eqb _ _).
  - intros Hp Ht Hu Hv. unfold init. by rewrite Hp, Ht, Hu, Hv.
Qed.

End SetupProperties.

(** ** The properties at concrete inputs *)

Section Evaluation.

Import Instances.

#[local] Existing Instance asciiImports.
#[local] Existing Instance memClient.

(** The round trip of an SRV record whose name holds the service and the
    transport. *)
Lemma C1_round_trip_witness :
  (canonicalName zone srvRecord /\ canonicalData srvRecord /\
   wholeSeconds (ttlOf srvRecord)) /\
  convertToLibdnsRecord zone (wireRecordFor 7 (recordOptions zone (RRof srvRecord)))
  = Some (SRV "sip" "tcp" "example" 300000000000 10 20 5060 "sip.example.com"
            (idData "7")).
Proof.
  assert (Hname : canonicalName zone srvRecord) by reflexivity.
  assert (Hdata : canonicalData srvRecord).
  { simpl. split; [lia|split; [lia|split; [lia|reflexivity]]]. }
  assert (Httl : wholeSeconds (ttlOf srvRecord)).
  { split; [cbv [ttlOf srvRecord RRof rrTTL]; lia | reflexivity]. }
  split; [done|].
  exact (C1_round_trip zone srvRecord 7 Hname Hdata Httl).
Defined.

(** Without the condition on the TTL the round trip fails: the name and the
    data of this record are canonical, its TTL is one and a half seconds,
    and it comes back with a TTL of one second. *)
Lemma C1_counterexample :
  canonicalName zone txtRecordHalfSecond /\ canonicalData txtRecordHalfSecond /\
  convertToLibdnsRecord zone
    (wireRecordFor 7 (recordOptions zone (RRof txtRecordHalfSecond)))
  = Some (TXT "www" 1000000000 "v=spf1 -all" (idData "7")) /\
  convertToLibdnsRecord zone
    (wireRecordFor 7 (recordOptions zone (RRof txtRecordHalfSecond)))
  <> Some (withProviderData (idData "7") (splitService txtRecordHalfSecond)).
Proof.
  assert (Hval : convertToLibdnsRecord zone
                   (wireRecordFor 7 (recordOptions zone (RRof txtRecordHalfSecond)))
                 = Some (TXT "www" 1000000000 "v=spf1 -all" (idData "7")))
    by reflexivity.
  split; [reflexivity|]. split; [exact I|]. split; [exact Hval|].
  rewrite Hval. cbn [withProviderData splitService txtRecordHalfSecond].
  intros Heq. injection Heq. lia.
Qed.

(** The upsert of a stored record issues one Update call, the upsert of a
    new record one Create call. *)
Lemma C2_upsert_dispatch_witness :
  (getProviderData (Some txtRecordStored) = Some {[ "id" := anyString "42" ]} /\
   strconv.Atoi "42" = inl 42 /\
   getProviderData (Some txtRecordNew) = None) /\
  calls (snd (createOrUpdateDomainRecord zone 1 (Some txtRecordStored) oneRecordWorld))
  = [CallUpdate 1 42 txtOptions] /\
  calls (snd (createOrUpdateDomainRecord zone 1 (Some txtRecordNew) oneRecordWorld))
  = [CallCreate 1 txtOptions].
Proof.
  split; [by repeat split|]. split.
  - destruct (C2_upsert_dispatch zone 1 (Some txtRecordStored) oneRecordWorld)
      as [Hupdate _].
    destruct (Hupdate {[ "id" := anyString "42" ]} (anyString "42") eq_refl eq_refl)
      as (new & Hcalls & _ & Hstr).
    destruct (Hstr "42" eq_refl) as (_ & Hcall & _).
    destruct (Hcall 42 eq_refl) as (rr & Hrr & Hnew).
    injection Hrr as <-. rewrite Hcalls, Hnew. reflexivity.
  - destruct (C2_upsert_dispatch zone 1 (Some txtRecordNew) oneRecordWorld)
      as [_ Hcreate].
    destruct (Hcreate (or_introl eq_refl)) as (_ & new & Hcalls & _ & Hnew).
    rewrite Hcalls, (Hnew _ eq_refl). reflexivity.
Defined.

(** Deleting a record without identifier, with a malformed identifier, and
    the stored record 42. *)
Lemma C3_delete_requires_identifier_witness :
  (getProviderData (Some txtRecordNew) = None /\
   getProviderData (Some txtRecordBadId) = Some {[ "id" := anyString "forty-two" ]} /\
   strconv.Atoi "forty-two" = inr (strconv.mkNumError "Atoi" "forty-two" strconv.ErrSyntax) /\
   getProviderData (Some txtRecordStored) = Some {[ "id" := anyString "42" ]} /\
   strconv.Atoi "42" = inl 42) /\
  deleteDomainRecord 1 (Some txtRecordNew) oneRecordWorld
  = (Ret (Some (errorf "record does not have provider data with ID")), oneRecordWorld) /\
  deleteDomainRecord 1 (Some txtRecordBadId) oneRecordWorld
  = (Ret (Some (numError
                  (strconv.mkNumError "Atoi" "forty-two" strconv.ErrSyntax))),
     oneRecordWorld) /\
  deleteDomainRecord 1 (Some txtRecordStored) oneRecordWorld
  = (Ret None, mkWorld (mkMemStore 43 []) [CallDelete 1 42]).
Proof.
  split; [by repeat split|]. split; [|split].
  - destruct (C3_delete_requires_identifier 1 (Some txtRecordNew) oneRecordWorld)
      as [Hnone _].
    exact (Hnone eq_refl).
  - destruct (C3_delete_requires_identifier 1 (Some txtRecordBadId) oneRecordWorld)
      as (_ & _ & Hbad & _).
    exact (Hbad _ _ _ eq_refl eq_refl eq_refl).
  - destruct (C3_delete_requires_identifier 1 (Some txtRecordStored) oneRecordWorld)
      as (_ & _ & _ & Hgood).
    exact (Hgood _ _ _ eq_refl eq_refl eq_refl).
Defined.

(** The SRV example of the specification. *)
Lemma C4_srv_decode_witness :
  ToUpper (Type_ srvWire) = "SRV" /\
  exists service transport name,
    convertToLibdnsRecord zone srvWire
    = Some (SRV service transport name 300000000000 10 20 5060 "sip.example.com"
              (idData "7")) /\
    (service, transport, name) = ("sip", "tcp", "example").
Proof.
  split; [reflexivity|].
  destruct (C4_srv_decode zone srvWire eq_refl) as (_ & _ & Hfields).
  destruct (Hfields "10" "20" "5060" "sip.example.com" 10 20 5060
              eq_refl eq_refl eq_refl eq_refl)
    as (service & transport & name & Hconv & _ & _ & Hsplit).
  exists service, transport, name. split; [exact Hconv|].
  destruct (Hsplit "_sip" "_tcp" ["example"] eq_refl eq_refl) as [_ Heq].
  exact Heq.
Defined.

(** The split in the words of the specification fails on a name that starts
    with "_" and holds no dot: it makes "sip" the service and leaves an
    empty residual name, while the decoded record keeps the name "_sip" and
    has no service. *)
Lemma C4_counterexample :
  ToUpper (Type_ srvWireNoDot) = "SRV" /\
  strings.HasPrefix (RelativeName (Name srvWireNoDot) zone) "_" = true /\
  convertToLibdnsRecord zone srvWireNoDot
  = Some (SRV "" "" "_sip" 300000000000 10 20 5060 "sip.example.com" (idData "7")) /\
  specifiedServiceSplit (RelativeName (Name srvWireNoDot) zone) = ("sip", "", "") /\
  ("", "", "_sip") <> specifiedServiceSplit (RelativeName (Name srvWireNoDot) zone).
Proof. repeat split. intros [=]. Qed.

(** The MX example of the specification. *)
Lemma C5_mx_decode_witness :
  ToUpper (Type_ mxWire) = "MX" /\
  convertToLibdnsRecord zone mxWire
  = Some (MX "@" 300000000000 10 "mail.example.com" (idData "8")).
Proof.
  split; [reflexivity|].
  pose proof (C5_mx_decode zone mxWire eq_refl) as Hmx. hnf in Hmx.
  destruct Hmx as (_ & _ & _ & Hmx). hnf in Hmx.
  destruct Hmx as [Hmx _]. exact Hmx.
Defined.

(** Listing a domain whose second record has malformed MX data. *)
Lemma C8_list_one_record_per_wire_witness :
  apiListDomainRecords 1 (store twoRecordWorld)
  = (ok [srvWire; mxWireBad], store twoRecordWorld) /\
  exists records,
    listDomainRecords zone 1 twoRecordWorld
    = (Ret (ok records), mkWorld (store twoRecordWorld) [CallList 1]) /\
    length records = 2%nat /\
    records !! 1%nat = Some (Some (Generic (rawRecord zone mxWireBad))).
Proof.
  split; [reflexivity|].
  destruct (C8_list_one_record_per_wire zone 1 twoRecordWorld
              [srvWire; mxWireBad] (store twoRecordWorld) eq_refl)
    as (records & Hrun & _ & Hlen & Heach).
  exists records. split; [exact Hrun|]. split; [exact Hlen|].
  destruct (Heach 1%nat mxWireBad eq_refl) as (r & Hr & _ & Hgeneric).
  rewrite Hr. f_equal. f_equal. exact (Hgeneric eq_refl).
Defined.

(** CAA flags of 300 are decoded as 44. *)
Lemma C9_narrowing_conversions_witness :
  (ToUpper (Type_ caaWire) = "CAA" /\
   strings.SplitN (Target caaWire) " " 3 = ["300"; "issue"; "letsencrypt.org"] /\
   strconv.Atoi "300" = inl 300) /\
  exists name ttl providerData,
    convertToLibdnsRecord zone caaWire
    = Some (CAA name ttl 44 "issue" "letsencrypt.org" providerData).
Proof.
  split; [by repeat split|].
  destruct (C9_narrowing_conversions zone) as (_ & _ & _ & Hcaa).
  exact (Hcaa caaWire "300" "issue" "letsencrypt.org" 300 eq_refl eq_refl eq_refl).
Defined.

(** The id of a decoded record is a string; a boolean id makes the upsert
    panic. *)
Lemma C10_unchecked_id_assertion_witness :
  getProviderData (convertToLibdnsRecord zone srvWire) = Some {[ "id" := anyString "7" ]} /\
  (exists idStr,
     ({[ "id" := anyString "7" ]} : gmap string any) !! "id" = Some (anyString idStr)) /\
  exists msg,
    createOrUpdateDomainRecord zone 1
      (Some (TXT "www" 300000000000 "v=spf1 -all" (anyMap {[ "id" := anyBool true ]})))
      oneRecordWorld
    = (Panic msg, oneRecordWorld).
Proof.
  split; [reflexivity|].
  destruct (C10_unchecked_id_assertion zone 1 oneRecordWorld) as (Hdecoded & _ & Hany).
  split.
  - destruct (Hdecoded srvWire) as [Hid _]. exact (Hid _ eq_refl).
  - assert (Hid : ({[ "id" := anyBool true ]} : gmap string any) !! "id"
                  = Some (anyBool true)) by reflexivity.
    destruct (Hany (Some (TXT "www" 300000000000 "v=spf1 -all"
                            (anyMap {[ "id" := anyBool true ]})))
                _ (anyBool true) eq_refl Hid)
      as [Hpanic _]; [intros idStr; discriminate|].
    exact Hpanic.
Defined.

End Evaluation.


(** ** The further properties at concrete inputs *)

Section MoreEvaluation.

Import Instances MoreInstances.

#[local] Existing Instance asciiImports.
#[local] Existing Instance memClient.

(** An address record whose type is written in lower case. *)
Lemma decode_address_witness :
  (ToUpper (Type_ aWire) = "A" /\ ParseAddr (Target aWire) = Some (203, 0, 113, 5)) /\
  convertToLibdnsRecord zone aWire
  = Some (Address "www" 300000000000 (203, 0, 113, 5) (idData "12")).
Proof.
  split; [by split|].
  destruct (decode_address zone aWire (or_introl eq_refl)) as [Hparsed _].
  destruct (Hparsed (203, 0, 113, 5) eq_refl) as [Hdecoded _].
  exact Hdecoded.
Defined.

(** A CAA value that holds a space. *)
Lemma decode_caa_witness :
  ToUpper (Type_ caaWireGood) = "CAA" /\
  convertToLibdnsRecord zone caaWireGood
  = Some (CAA "@" 300000000000 0 "issue"
            "letsencrypt.org; validationmethods=dns-01" (idData "11")).
Proof.
  split; [reflexivity|].
  pose proof (decode_caa zone caaWireGood eq_refl) as Hcaa. hnf in Hcaa.
  destruct Hcaa as (_ & _ & _ & Hcaa). hnf in Hcaa.
  destruct Hcaa as [Hcaa _]. exact Hcaa.
Defined.

(** The name "_sip._tcp.example". *)
Lemma decode_srv_documented_name_witness :
  (ToUpper (Type_ srvWire) = "SRV" /\
   strings.Fields (Target srvWire) = ["10"; "20"; "5060"; "sip.example.com"] /\
   strings.Cut "sip" "." = None /\ strings.Cut "tcp" "." = None /\
   RelativeName (Name srvWire) zone = "_" +:+ "sip" +:+ "._" +:+ "tcp" +:+ "." +:+ "example") /\
  convertToLibdnsRecord zone srvWire
  = Some (SRV "sip" "tcp" "example" 300000000000 10 20 5060 "sip.example.com"
            (idData "7")).
Proof.
  split; [by repeat split|].
  destruct (decode_srv_documented_name zone srvWire "sip" "tcp"
              "10" "20" "5060" "sip.example.com" 10 20 5060
              eq_refl eq_refl eq_refl eq_refl eq_refl eq_refl eq_refl)
    as [Hname _].
  exact (Hname "example" eq_refl).
Defined.

(** The types "SRV" and "sRv". *)
Lemma decode_type_case_witness :
  (strings.isASCII (Type_ srvWire) = true /\ strings.isASCII "sRv" = true /\
   strings.upperASCII "sRv" = strings.upperASCII (Type_ srvWire)) /\
  ((exists r, convertToLibdnsRecord zone srvWire = Some r /\ isGeneric r = false /\
              convertToLibdnsRecord zone (withType "sRv" srvWire) = Some r) \/
   (convertToLibdnsRecord zone srvWire = Some (Generic (rawRecord zone srvWire)) /\
    convertToLibdnsRecord zone (withType "sRv" srvWire)
    = Some (Generic (rawRecord zone (withType "sRv" srvWire))))).
Proof.
  split; [by repeat split|].
  exact (decode_type_case zone srvWire "sRv" eq_refl eq_refl eq_refl).
Defined.

(** Two spaces before and one after the SRV target. *)
Lemma decode_srv_padding_witness :
  (ToUpper (Type_ srvWire) = "SRV" /\ allSpace "  " = true /\ allSpace " " = true /\
   isService (convertToLibdnsRecord zone srvWire) = true) /\
  convertToLibdnsRecord zone srvWirePadded = convertToLibdnsRecord zone srvWire.
Proof.
  split; [by repeat split|].
  exact (decode_srv_padding zone srvWire "  " " " eq_refl eq_refl eq_refl eq_refl).
Defined.

(** An MX target that starts with a space. *)
Lemma decode_leading_space_witness :
  (ToUpper (Type_ mxWireLeadingSpace) = "MX" /\
   Target mxWireLeadingSpace = String " " "10 mail.example.com") /\
  convertToLibdnsRecord zone mxWireLeadingSpace
  = Some (Generic (mkRR "@" 300000000000 "MX" " 10 mail.example.com")).
Proof.
  split; [by split|].
  exact (decode_leading_space zone mxWireLeadingSpace "10 mail.example.com"
           (or_introl eq_refl) eq_refl).
Defined.

(** A wire TTL of 300 seconds. *)
Lemma decoded_ttl_witness :
  exists r,
    convertToLibdnsRecord zone srvWire = Some r /\
    recordTTL r = 300000000000 /\
    time.int_of_float64 (time.Seconds (recordTTL r)) = 300.
Proof.
  assert (Hr : convertToLibdnsRecord zone srvWire
               = Some (SRV "sip" "tcp" "example" 300000000000 10 20 5060
                         "sip.example.com" (idData "7"))) by reflexivity.
  eexists. split; [exact Hr|].
  destruct (decoded_ttl zone srvWire _ Hr) as [_ Hexact].
  apply Hexact. simpl. lia.
Defined.

(** A record whose provider data is nil. *)
Lemma no_map_is_new_witness :
  (forall data, providerDataField txtRecordNew <> Some (anyMap data)) /\
  calls (snd (createOrUpdateDomainRecord zone 1 (Some txtRecordNew) oneRecordWorld))
  = [CallCreate 1 txtOptions].
Proof.
  assert (Hno : forall data, providerDataField txtRecordNew <> Some (anyMap data))
    by (intros data; discriminate).
  split; [exact Hno|].
  destruct (no_map_is_new zone 1 oneRecordWorld) as [Hnew _].
  destruct (Hnew txtRecordNew Hno) as (_ & Hcalls & _).
  exact Hcalls.
Defined.

(** Deleting the decoded form of the stored address record 12. *)
Lemma decoded_addresses_wire_witness :
  (getProviderData (convertToLibdnsRecord zone aWire) = Some {[ "id" := anyString "12" ]} /\
   - 2 ^ 63 <= ID aWire < 2 ^ 63) /\
  deleteDomainRecord 1 (convertToLibdnsRecord zone aWire) addressWorld
  = (Ret None, mkWorld (mkMemStore 13 []) [CallDelete 1 12]).
Proof.
  assert (Hid : - 2 ^ 63 <= ID aWire < 2 ^ 63) by (simpl; lia).
  split; [by split|].
  assert (Hpd : getProviderData (convertToLibdnsRecord zone aWire)
                = Some {[ "id" := anyString "12" ]}) by reflexivity.
  destruct (decoded_addresses_wire zone 1 aWire addressWorld _ Hpd Hid)
    as [_ Hdelete].
  exact Hdelete.
Defined.

(** A PTR record, which decodes to the Generic fallback. *)
Lemma generic_decoded_is_new_witness :
  exists r,
    (convertToLibdnsRecord zone ptrWire = Some r /\ isGeneric r = true) /\
    deleteDomainRecord 1 (Some r) oneRecordWorld
    = (Ret (Some (errorf "record does not have provider data with ID")), oneRecordWorld) /\
    calls (snd (createOrUpdateDomainRecord zone 1 (Some r) oneRecordWorld))
    = [CallCreate 1 (mkOptions "PTR" "5" "host.example.com" 300)].
Proof.
  assert (Hr : convertToLibdnsRecord zone ptrWire
               = Some (Generic (mkRR "5" 300000000000 "PTR" "host.example.com")))
    by reflexivity.
  eexists. split; [split; [exact Hr|reflexivity]|].
  destruct (generic_decoded_is_new zone 1 ptrWire oneRecordWorld _ Hr eq_refl)
    as (_ & Hdelete & Hupsert).
  split; [exact Hdelete | exact Hupsert].
Defined.

(** Upserting a new TXT record twice in a store whose next identifier is 43. *)
Lemma create_then_update_witness :
  (getProviderData (Some txtRecordNew) = None /\
   apiCreateDomainRecord 1 (recordOptions zone (RRof txtRecordNew)) (store oneRecordWorld)
   = (ok (wireRecordFor 43 txtOptions),
      mkMemStore 44 [(1, wireRecordFor 42 txtOptions); (1, wireRecordFor 43 txtOptions)])) /\
  exists w1,
    createOrUpdateDomainRecord zone 1 (Some txtRecordNew) oneRecordWorld
    = (Ret (ok (Some (TXT "www" 300000000000 "v=spf1 -all" (idData "43")))), w1) /\
    calls (snd (createOrUpdateDomainRecord zone 1
                  (Some (TXT "www" 300000000000 "v=spf1 -all" (idData "43"))) w1))
    = [CallCreate 1 txtOptions; CallUpdate 1 43 txtOptions].
Proof.
  split; [by split|].
  assert (Hid : - 2 ^ 63 <= ID (wireRecordFor 43 txtOptions) < 2 ^ 63) by (simpl; lia).
  assert (Hcreate :
            apiCreateDomainRecord 1 (recordOptions zone (RRof txtRecordNew))
              (store oneRecordWorld)
            = (ok (wireRecordFor 43 txtOptions),
               mkMemStore 44 [(1, wireRecordFor 42 txtOptions);
                              (1, wireRecordFor 43 txtOptions)])) by reflexivity.
  assert (Hpd : getProviderData (convertToLibdnsRecord zone (wireRecordFor 43 txtOptions))
                = Some {[ "id" := anyString "43" ]}) by reflexivity.
  destruct (create_then_update zone 1 txtRecordNew oneRecordWorld
              (wireRecordFor 43 txtOptions) _ _ eq_refl Hcreate Hpd Hid)
    as [Hfirst (r' & Hr' & Hsecond)].
  eexists. split; [exact Hfirst|].
  injection Hr' as <-. exact Hsecond.
Defined.

(** Looking up "example.com.", which two domains of the store match. *)
Lemma zone_lookup_witness :
  @getDomainIDByZone memClient memDomainsClient "example.com." (mkMemStore 1 [])
  = (ok 1, mkMemStore 1 [], ["example.com"]).
Proof.
  pose proof (@zone_lookup memClient memDomainsClient "example.com." (mkMemStore 1 []))
    as Hlookup.
  destruct (@getDomainIDByZone memClient memDomainsClient "example.com." (mkMemStore 1 []))
    as [[r st'] filters].
  hnf in Hlookup. destruct Hlookup as (-> & -> & Hok & _).
  assert (Hr : r = ok 1).
  { apply Hok. exists (mkDomain 1 "example.com"), [mkDomain 3 "example.com"].
    split; reflexivity. }
  rewrite Hr. reflexivity.
Defined.

(** A provider whose token is changed after the first [init]. *)
Lemma init_once_witness :
  once freshProvider = false /\
  @client settingsSetup
    (init (configure "token-2" "https://example.net" EmptyString (init freshProvider)))
  = ("token-1", "https://api.linode.com", "v4beta").
Proof.
  split; [reflexivity|].
  destruct (@init_once settingsSetup freshProvider "token-2" "https://example.net"
              EmptyString)
    as (_ & Hkept & Hfirst & _).
  rewrite Hkept, (Hfirst eq_refl). reflexivity.
Defined.

(** With an "id" that is no string, or no integer, the upsert does not
    update: an integer "id" makes it panic, and the "id" "forty-two" makes
    it return the parse error; in both cases the store and the call log
    are untouched, so no Update call is issued. *)
Lemma C2_counterexample :
  (getProviderData (Some txtRecordIntId) = Some {[ "id" := anyInt 42 ]} /\
   ({[ "id" := anyInt 42 ]} : gmap string any) !! "id" = Some (anyInt 42) /\
   createOrUpdateDomainRecord zone 1 (Some txtRecordIntId) oneRecordWorld
   = (Panic "interface conversion: interface {} is not string", oneRecordWorld) /\
   existsb isUpdate
     (calls (snd (createOrUpdateDomainRecord zone 1 (Some txtRecordIntId) oneRecordWorld)))
   = false) /\
  (getProviderData (Some txtRecordBadId) = Some {[ "id" := anyString "forty-two" ]} /\
   ({[ "id" := anyString "forty-two" ]} : gmap string any) !! "id"
   = Some (anyString "forty-two") /\
   createOrUpdateDomainRecord zone 1 (Some txtRecordBadId) oneRecordWorld
   = (Ret (fail (numError (strconv.mkNumError "Atoi" "forty-two" strconv.ErrSyntax))),
      oneRecordWorld) /\
   existsb isUpdate
     (calls (snd (createOrUpdateDomainRecord zone 1 (Some txtRecordBadId) oneRecordWorld)))
   = false).
Proof. repeat split. Qed.

(** With a first part of 70000 the decoded preference is not that integer:
    it is 4464, the remainder of 70000 modulo 2^16. *)
Lemma C5_counterexample :
  ToUpper (Type_ mxWireLarge) = "MX" /\
  strings.SplitN (Target mxWireLarge) " " 2 = ["70000"; "host"] /\
  strconv.Atoi "70000" = inl 70000 /\
  convertToLibdnsRecord zone mxWireLarge
  = Some (MX "@" 300000000000 4464 "host" (idData "9")) /\
  convertToLibdnsRecord zone mxWireLarge
  <> Some (MX "@" 300000000000 70000 "host" (idData "9")).
Proof.
  assert (Hval : convertToLibdnsRecord zone mxWireLarge
                 = Some (MX "@" 300000000000 4464 "host" (idData "9")))
    by reflexivity.
  split; [reflexivity|]. split; [reflexivity|]. split; [reflexivity|].
  split; [exact Hval|]. rewrite Hval. intros Heq. injection Heq. lia.
Qed.

End MoreEvaluation.

Section DeniedEvaluation.

Import Instances MoreInstances.

#[local] Existing Instance asciiImports.
#[local] Existing Instance deniedClient.

(** Listing with a client whose calls are refused. *)
Lemma list_one_call_witness :
  fst (apiListDomainRecords 1 (store deniedWorld)) = fail "Unauthorized" /\
  fst (listDomainRecords zone 1 deniedWorld)
  = Ret (fail (errorfWrap "could not list domain records" "Unauthorized")) /\
  calls (snd (listDomainRecords zone 1 deniedWorld)) = [CallList 1].
Proof.
  split; [reflexivity|].
  destruct (list_one_call zone 1 deniedWorld) as (Hcalls & _ & Hfail).
  split; [|exact Hcalls].
  apply Hfail. exists "Unauthorized". split; reflexivity.
Defined.

End DeniedEvaluation.

